(** * Deal-hunter: price scraping, filtering and persistence

    A shallow embedding of the Python sources
    ([platform_modules/base_platform.py], the four platform modules,
    [input_processor.py], [database_manager.py], [main_shopper.py])
    and the properties of the specification checked against it.

    Modelling conventions.
    - A Python [str] is a [string]; the character tests ([str.isdigit],
      whitespace) are the ASCII ones, so non-ASCII digits and spaces are
      outside the model.
    - A Python [float] is a [pyfloat]: a rational for a finite value, or an
      infinity, or NaN.  Rounding to binary64 is not modelled: a decimal
      literal denotes its exact value.
    - Exceptions are values of [exn]; code that can raise lives in [M].
    - What comes from a library is part of the input: the outcome of
      [session.get], the tree BeautifulSoup builds (seen through the
      selectors the code uses), the value [json.loads] decodes.          *)

From Stdlib Require Import Bool Arith ZArith QArith Qpower Lia List Ascii String.
From Stdlib Require Import DecimalString.
Import ListNotations.

Close Scope Q_scope.
Local Open Scope list_scope.
Local Open Scope bool_scope.
Local Open Scope string_scope.


(** ** Exceptions *)

Inductive exn : Type :=
| AttributeError | TypeError | ValueError | IndexError | KeyError
| OverflowError | JSONDecodeError | RequestException | SqliteError | OSError.

(** [M A]: a computation that returns an [A] or raises. *)
Definition M (A : Type) : Type := (exn + A)%type.

Definition ret {A} (a : A) : M A := inr a.
Definition raise {A} (e : exn) : M A := inl e.
Definition bind {A B} (m : M A) (k : A -> M B) : M B :=
  match m with
  | inl e => inl e
  | inr a => k a
  end.

Notation "x <- m ;; k" := (bind m (fun x => k))
  (at level 61, m at next level, right associativity).

(** ** Python strings *)

Module Py.

Definition ord (c : ascii) : nat := nat_of_ascii c.

(** The double quote character. *)
Definition dquote : ascii := ascii_of_nat 34.

(** [c.isdigit ()] on ASCII. *)
Definition isdigit (c : ascii) : bool := (48 <=? ord c)%nat && (ord c <=? 57)%nat.

(** [c.isspace ()] on ASCII: TAB, LF, VT, FF, CR, FS, GS, RS, US, SPACE. *)
Definition isspace (c : ascii) : bool :=
  ((9 <=? ord c)%nat && (ord c <=? 13)%nat)
  || ((28 <=? ord c)%nat && (ord c <=? 32)%nat).

Definition is_empty (s : string) : bool :=
  match s with
  | EmptyString => true
  | String _ _ => false
  end.

Fixpoint lstrip (s : string) : string :=
  match s with
  | EmptyString => EmptyString
  | String c r => if isspace c then lstrip r else s
  end.

Fixpoint rstrip (s : string) : string :=
  match s with
  | EmptyString => EmptyString
  | String c r =>
      let r' := rstrip r in
      if isspace c && is_empty r' then EmptyString else String c r'
  end.

(** [s.strip ()] *)
Definition strip (s : string) : string := rstrip (lstrip s).

Fixpoint filter (f : ascii -> bool) (s : string) : string :=
  match s with
  | EmptyString => EmptyString
  | String c r => if f c then String c (filter f r) else filter f r
  end.

Fixpoint map (f : ascii -> ascii) (s : string) : string :=
  match s with
  | EmptyString => EmptyString
  | String c r => String (f c) (map f r)
  end.

Definition lower_char (c : ascii) : ascii :=
  if (65 <=? ord c)%nat && (ord c <=? 90)%nat then ascii_of_nat (ord c + 32) else c.

(** [s.lower ()] *)
Definition lower (s : string) : string := map lower_char s.

(** [all (f (c) for c in s)] *)
Fixpoint all (f : ascii -> bool) (s : string) : bool :=
  match s with
  | EmptyString => true
  | String c r => f c && all f r
  end.

(** [s.startswith (p)] *)
Definition startswith (s p : string) : bool := String.prefix p s.

(** [sub in s] *)
Fixpoint contains (sub s : string) : bool :=
  String.prefix sub s
  || match s with
     | EmptyString => false
     | String _ r => contains sub r
     end.

(** [s.split (sep)[0]] for a non-empty [sep]: the text before the first
    occurrence of [sep], or all of [s]. *)
Fixpoint before_first (sep s : string) : string :=
  match s with
  | EmptyString => EmptyString
  | String c r => if String.prefix sep s then EmptyString else String c (before_first sep r)
  end.

Fixpoint replace_from (old new : string) (skip : nat) (s : string) : string :=
  match s with
  | EmptyString => EmptyString
  | String c r =>
      match skip with
      | S k => replace_from old new k r
      | O =>
          if String.prefix old s
          then new ++ replace_from old new (String.length old - 1) r
          else String c (replace_from old new 0 r)
      end
  end.

(** [s.replace (old, new)] for a non-empty [old]: the occurrences are
    replaced from the left and do not overlap. *)
Definition replace (old new s : string) : string := replace_from old new 0 s.

Fixpoint split_ws_from (cur s : string) : list string :=
  match s with
  | EmptyString => if is_empty cur then [] else [cur]
  | String c r =>
      if isspace c
      then (if is_empty cur then split_ws_from EmptyString r
            else cur :: split_ws_from EmptyString r)
      else split_ws_from (cur ++ String c EmptyString) r
  end.

(** [s.split ()] *)
Definition split_ws (s : string) : list string := split_ws_from EmptyString s.

(** [x is None] *)
Definition is_None {A} (x : option A) : bool :=
  match x with
  | None => true
  | Some _ => false
  end.

(** [not x] for [x] a string or [None] *)
Definition is_falsy (x : option string) : bool :=
  match x with
  | None => true
  | Some s => is_empty s
  end.

(** [l[-1]] *)
Definition last_item {A} (l : list A) : M A :=
  match rev l with
  | [] => raise IndexError
  | x :: _ => ret x
  end.

(** Cut at the first character that satisfies [p]: the text before it
    and, when there is one, the text after it. *)
Fixpoint cut (p : ascii -> bool) (s : string) : string * option string :=
  match s with
  | EmptyString => (EmptyString, None)
  | String c r =>
      if p c then (EmptyString, Some r)
      else let '(a, b) := cut p r in (String c a, b)
  end.

End Py.

(** ** Python floats *)

Inductive pyfloat : Type :=
| Finite (q : Q)
| Inf (negative : bool)
| NaN.

(** The order of two floats; [None] when one of them is NaN. *)
Definition float_compare (a b : pyfloat) : option comparison :=
  match a, b with
  | NaN, _ | _, NaN => None
  | Finite x, Finite y => Some (Qcompare x y)
  | Inf true, Inf true | Inf false, Inf false => Some Eq
  | Inf true, _ | _, Inf false => Some Lt
  | _, Inf true | Inf false, _ => Some Gt
  end.

(** [a > b], [a < b], [a == b] *)
Definition float_gt (a b : pyfloat) : bool :=
  match float_compare a b with Some Gt => true | _ => false end.
Definition float_lt (a b : pyfloat) : bool :=
  match float_compare a b with Some Lt => true | _ => false end.
Definition float_eq (a b : pyfloat) : bool :=
  match float_compare a b with Some Eq => true | _ => false end.

Definition float_zero : pyfloat := Finite 0.

Module FloatParse.

Definition digit_value (c : ascii) : Z := Z.of_nat (Py.ord c - 48).

Fixpoint digits_value_from (acc : Z) (s : string) : Z :=
  match s with
  | EmptyString => acc
  | String c r => digits_value_from (acc * 10 + digit_value c) r
  end.

(** The number a string of decimal digits denotes. *)
Definition digits_value (s : string) : Z := digits_value_from 0 s.

(** A digit part: digits, where single underscores may separate digits.
    Returns the digits, or [None] when [s] is not a digit part. *)
Fixpoint digitpart_from (after_digit : bool) (s : string) : option string :=
  match s with
  | EmptyString => if after_digit then Some EmptyString else None
  | String c r =>
      if Py.isdigit c then option_map (String c) (digitpart_from true r)
      else if Ascii.eqb c "_" && after_digit then digitpart_from false r
      else None
  end.

Definition digitpart (s : string) : option string := digitpart_from false s.

(** A digit part that may be empty. *)
Definition opt_digitpart (s : string) : option string :=
  if Py.is_empty s then Some EmptyString else digitpart s.

Definition take_sign (s : string) : bool * string :=
  match s with
  | String "+" r => (false, r)
  | String "-" r => (true, r)
  | _ => (false, s)
  end.

Definition is_e (c : ascii) : bool := Ascii.eqb c "e" || Ascii.eqb c "E".
Definition is_point (c : ascii) : bool := Ascii.eqb c ".".

(** The exponent: absent is 0; present, it is a sign and a digit part. *)
Definition exponent (ex : option string) : option Z :=
  match ex with
  | None => Some 0%Z
  | Some t =>
      let '(neg, ds) := take_sign t in
      match digitpart ds with
      | None => None
      | Some d => Some (if neg then (- digits_value d)%Z else digits_value d)
      end
  end.

(** The value of the digits [ip.fp] scaled by [10^e]. *)
Definition decimal (neg : bool) (ip fp : string) (e : Z) : Q :=
  let m := inject_Z (digits_value (ip ++ fp)) in
  let v := (m * Qpower (inject_Z 10) (e - Z.of_nat (String.length fp)))%Q in
  if neg then Qopp v else v.

(** [float (s)] for a [str]: [None] is [ValueError]. *)
Definition float_of_string (s : string) : option pyfloat :=
  let '(neg, body) := take_sign (Py.strip s) in
  let lb := Py.lower body in
  if String.eqb lb "inf" || String.eqb lb "infinity" then Some (Inf neg)
  else if String.eqb lb "nan" then Some NaN
  else
    let '(mant, ex) := Py.cut is_e body in
    let '(ip, fp) := Py.cut is_point mant in
    let fp := match fp with Some f => f | None => EmptyString end in
    match opt_digitpart ip, opt_digitpart fp, exponent ex with
    | Some i, Some f, Some e =>
        if Py.is_empty i && Py.is_empty f then None
        else Some (Finite (decimal neg i f e))
    | _, _, _ => None
    end.

End FloatParse.

(** ** Values decoded by [json.loads] *)

(** A float is carried by its [repr], which determines it. *)
#[warnings="-register-all"]
Inductive json : Type :=
| JNull
| JBool (b : bool)
| JInt (z : Z)
| JFloat (repr : string)
| JStr (s : string)
| JArr (items : list json)
| JObj (members : list (string * json)).

Module PyVal.

Definition float_value (repr : string) : pyfloat :=
  match FloatParse.float_of_string repr with
  | Some f => f
  | None => NaN
  end.

(** [bool (v)] *)
Definition truthy (v : json) : bool :=
  match v with
  | JNull => false
  | JBool b => b
  | JInt z => negb (z =? 0)%Z
  | JFloat r => negb (float_eq (float_value r) float_zero)
  | JStr s => negb (Py.is_empty s)
  | JArr l => match l with [] => false | _ => true end
  | JObj m => match m with [] => false | _ => true end
  end.

Fixpoint lookup (k : string) (m : list (string * json)) : option json :=
  match m with
  | [] => None
  | (k', v) :: r => if String.eqb k k' then Some v else lookup k r
  end.

(** [v.get (k, default)]: only a dict has the method. *)
Definition get (v : json) (k : string) (default : json) : M json :=
  match v with
  | JObj m => ret (match lookup k m with Some x => x | None => default end)
  | _ => raise AttributeError
  end.

(** [v == s] for a string literal [s] *)
Definition eq_str (v : json) (s : string) : bool :=
  match v with
  | JStr t => String.eqb t s
  | _ => false
  end.

(** [isinstance (v, list)], [isinstance (v, dict)] *)
Definition is_list (v : json) : bool := match v with JArr _ => true | _ => false end.
Definition is_dict (v : json) : bool := match v with JObj _ => true | _ => false end.

(** [for x in v]: the elements of a list, the keys of a dict, the
    characters of a string. *)
Definition iter (v : json) : M (list json) :=
  match v with
  | JArr l => ret l
  | JObj m => ret (List.map (fun kv => JStr (fst kv)) m)
  | JStr s => ret (List.map (fun c => JStr (String c EmptyString)) (list_ascii_of_string s))
  | _ => raise TypeError
  end.

(** [len (v)] succeeds on what has a length. *)
Definition len (v : json) : M nat :=
  match v with
  | JArr l => ret (List.length l)
  | JObj m => ret (List.length m)
  | JStr s => ret (String.length s)
  | _ => raise TypeError
  end.

(** [v.strip ()], [v.startswith (p)]: only a string has the methods. *)
Definition strip (v : json) : M string :=
  match v with
  | JStr s => ret (Py.strip s)
  | _ => raise AttributeError
  end.

Definition startswith (v : json) (p : string) : M bool :=
  match v with
  | JStr s => ret (Py.startswith s p)
  | _ => raise AttributeError
  end.

Definition hex_digit (n : nat) : ascii :=
  if (n <? 10)%nat then ascii_of_nat (48 + n) else ascii_of_nat (87 + n).

Definition repr_char (quote c : ascii) : string :=
  let n := Py.ord c in
  if Ascii.eqb c "\" then "\\"
  else if Ascii.eqb c quote then String "\" (String quote EmptyString)
  else if (n =? 9)%nat then "\t"
  else if (n =? 10)%nat then "\n"
  else if (n =? 13)%nat then "\r"
  else if (n <? 32)%nat || (n =? 127)%nat
       then String "\" (String "x" (String (hex_digit (n / 16)) (String (hex_digit (n mod 16)) EmptyString)))
  else String c EmptyString.

Fixpoint repr_chars (quote : ascii) (s : string) : string :=
  match s with
  | EmptyString => EmptyString
  | String c r => repr_char quote c ++ repr_chars quote r
  end.

(** [repr (s)] for a string: single quotes, unless [s] has a single
    quote and no double quote. *)
Definition repr_str (s : string) : string :=
  let quote : ascii :=
    if Py.contains "'" s && negb (Py.contains (String Py.dquote EmptyString) s)
    then Py.dquote else "'"%char in
  String quote (repr_chars quote s ++ String quote EmptyString).

Definition join (sep : string) (l : list string) : string := String.concat sep l.

Definition string_of_Z (z : Z) : string := NilZero.string_of_int (Z.to_int z).

(** [repr (v)] *)
Fixpoint repr (v : json) : string :=
  match v with
  | JNull => "None"
  | JBool true => "True"
  | JBool false => "False"
  | JInt z => string_of_Z z
  | JFloat r => r
  | JStr s => repr_str s
  | JArr l => "[" ++ join ", " (List.map repr l) ++ "]"
  | JObj m =>
      "{" ++ join ", " (List.map (fun kv => repr_str (fst kv) ++ ": " ++ repr (snd kv)) m) ++ "}"
  end.

(** [str (v)] *)
Definition str (v : json) : string :=
  match v with
  | JStr s => s
  | _ => repr v
  end.

End PyVal.

(** ** [BasePlatform] helpers: price cleaning *)

Definition price_char (x : ascii) : bool := Py.isdigit x || Ascii.eqb x ".".

(** [BasePlatform._clean_price]: [None] for a falsy argument, for an
    empty remainder, and when [float] raises [ValueError]. *)
Definition _clean_price (price_str : json) : option pyfloat :=
  if negb (PyVal.truthy price_str) then None
  else
    let cleaned := Py.filter price_char (Py.strip (PyVal.str price_str)) in
    if negb (Py.is_empty cleaned) then
      match FloatParse.float_of_string cleaned with
      | Some f => Some f
      | None => None
      end
    else None.

(** ** The data model *)

(** An item dict as [read_input_file] leaves it: floats under
    ['max_price'] and ['min_seller_rating'], and a string under ['name']. *)
Record ItemRequest : Type := mkItem {
  name : string;
  max_price : pyfloat;
  min_seller_rating : pyfloat
}.

(** A result dict: the six keys, where [None] is a possible value of
    ['price'], ['seller_rating'] and ['link'] ([JNull] for ['title']). *)
Record Result : Type := mkResult {
  platform : string;
  item : string;
  title : json;
  price : option pyfloat;
  seller_rating : option pyfloat;
  link : option string
}.

(** ** The page, as the selectors see it *)

(** An element: [el.get_text (strip=True)] and, when [el.has_attr ('href')],
    [el['href']]. *)
Record Tag : Type := mkTag {
  get_text : string;
  href : option string
}.

(** A listing container: [select_one] by selector. *)
Record ListItem : Type := mkListItem {
  select_one : string -> option Tag
}.

(** A script element: its text and what [json.loads] makes of it. *)
Record Script : Type := mkScript {
  script_text : string;
  loads : M json
}.

(** The parsed document: [soup.select] by selector, for the selectors of
    listing containers and for those of scripts. *)
Record Soup : Type := mkSoup {
  select : string -> list ListItem;
  select_scripts : string -> list Script
}.

(** What [session.get] answered, together with the outcome of
    [BeautifulSoup (text, 'html.parser')]. *)
Record Response : Type := mkResponse {
  url : string;
  status_code : Z;
  text : string;
  parsed : M Soup
}.

(** ** The log, at level ERROR *)

Inductive LogEvent : Type :=
| RequestFailed          (* [_make_request]: the request raised *)
| HtmlParseFailed        (* [_parse_html]: the parser raised *)
| Blocked                (* the adapter recognised a block page *)
| ScriptTagError (e : exn).  (* an embedded script could not be processed *)

Record LogRecord : Type := mkLog {
  log_platform : string;
  log_event : LogEvent
}.

(** ** [BasePlatform] *)

Module BasePlatform.

(** [response.raise_for_status ()] raises for 4xx and 5xx. *)
Definition raise_for_status (r : Response) : M unit :=
  if (400 <=? status_code r)%Z && (status_code r <? 600)%Z
  then raise RequestException else ret tt.

(** [_make_request]: every exception is logged and turned into [None]. *)
Definition _make_request (platform_name : string) (session_get : M Response)
  : list LogRecord * option Response :=
  match (response <- session_get ;; _ <- raise_for_status response ;; ret response) with
  | inr response => ([], Some response)
  | inl _ => ([mkLog platform_name RequestFailed], None)
  end.

(** [_parse_html] *)
Definition _parse_html (platform_name : string) (response : Response)
  : list LogRecord * option Soup :=
  if Py.is_empty (text response) then ([], None)
  else
    match parsed response with
    | inr soup => ([], Some soup)
    | inl _ => ([mkLog platform_name HtmlParseFailed], None)
    end.

(** [_apply_filters]: the price rule.  (A result dict with its six keys
    is never falsy, so the first guard of the source never fires.) *)
Definition _apply_filters (result : Result) (it : ItemRequest) : bool :=
  match price result with
  | None => false
  | Some p => if float_gt p (max_price it) then false else true
  end.

End BasePlatform.

(** [try: body except Exception: continue] around one listing: the
    results the listing adds. *)
Definition listing_results (body : M (option Result)) : list Result :=
  match body with
  | inr (Some r) => [r]
  | inr None => []
  | inl _ => []
  end.

(** [try: m except (e1, e2, ...): h] *)
Definition try_except {A} (m : M A) (caught : exn -> bool) (h : A) : M A :=
  match m with
  | inr a => inr a
  | inl e => if caught e then inr h else inl e
  end.

(** ** [EbayPlatform] *)

Module EbayPlatform.

Definition platform_name := "eBay".
Definition RESULT_ITEM_SELECTOR := "li.s-item".
Definition TITLE_SELECTOR := "div.s-item__title span[role='heading']".
Definition PRICE_SELECTOR := "span.s-item__price".
Definition LINK_SELECTOR := "a.s-item__link".
Definition SELLER_INFO_SELECTOR := "span.s-item__seller-info-text".

Definition listing_title (list_item : ListItem) : string :=
  let link_element := select_one list_item LINK_SELECTOR in
  match select_one list_item TITLE_SELECTOR with
  | None => "N/A"
  | Some title_element =>
      let title_text := get_text title_element in
      let title_text :=
        match link_element with
        | Some le => if Py.is_empty title_text then get_text le else title_text
        | None => title_text
        end in
      Py.strip (Py.replace "New Listing" "" title_text)
  end.

Definition listing_price_str (list_item : ListItem) : string :=
  match select_one list_item PRICE_SELECTOR with
  | Some price_element => get_text price_element
  | None => ""
  end.

(** The lower price of a range: the text before the first [' to ']. *)
Definition listing_price (list_item : ListItem) : option pyfloat :=
  _clean_price (JStr (Py.before_first " to " (listing_price_str list_item))).

Definition listing_link (list_item : ListItem) : option string :=
  match select_one list_item LINK_SELECTOR with
  | Some link_element => href link_element
  | None => None
  end.

Definition is_rating_error (e : exn) : bool :=
  match e with
  | ValueError | IndexError | TypeError => true
  | _ => false
  end.

Definition listing_seller_rating (list_item : ListItem) : M (option pyfloat) :=
  match select_one list_item SELLER_INFO_SELECTOR with
  | None => ret None
  | Some seller_info_element =>
      let seller_text := get_text seller_info_element in
      if Py.contains "%" seller_text then
        try_except
          (rating_part <- Py.last_item (Py.split_ws (Py.before_first "%" seller_text)) ;;
           let cleaned_rating_part := Py.filter price_char rating_part in
           if negb (Py.is_empty cleaned_rating_part) then
             match FloatParse.float_of_string cleaned_rating_part with
             | Some f => ret (Some f)
             | None => raise ValueError
             end
           else ret None)
          is_rating_error None
      else ret None
  end.

(** [_apply_ebay_filters]: the seller-rating rule. *)
Definition _apply_ebay_filters (result : Result) (it : ItemRequest) : bool :=
  let min_rating := min_seller_rating it in
  if float_gt min_rating float_zero then
    match seller_rating result with
    | None => false
    | Some current_rating => if float_lt current_rating min_rating then false else true
    end
  else true.

(** The body of the loop over [list_items]: [inr None] is [continue] or
    a result the filters reject. *)
Definition process_listing (it : ItemRequest) (list_item : ListItem) : M (option Result) :=
  let title := listing_title list_item in
  let price := listing_price list_item in
  let link := listing_link list_item in
  seller_rating <- listing_seller_rating list_item ;;
  if String.eqb title "N/A" || Py.is_None price || Py.is_None link then ret None
  else
    let result := mkResult platform_name (name it) (JStr title) price seller_rating link in
    if BasePlatform._apply_filters result it && _apply_ebay_filters result it
    then ret (Some result) else ret None.

(** [EbayPlatform.search]: the log and the returned list. *)
Definition search (it : ItemRequest) (session_get : M Response)
  : list LogRecord * M (list Result) :=
  let '(log1, response) := BasePlatform._make_request platform_name session_get in
  match response with
  | None => (log1, ret [])
  | Some response =>
      let '(log2, soup) := BasePlatform._parse_html platform_name response in
      match soup with
      | None => (log1 ++ log2, ret [])%list
      | Some soup =>
          let list_items := select soup RESULT_ITEM_SELECTOR in
          ((log1 ++ log2)%list,
           ret (flat_map (fun list_item => listing_results (process_listing it list_item))
                         list_items))
      end
  end.

End EbayPlatform.

(** ** [AmazonPlatform] *)

Module AmazonPlatform.

Definition platform_name := "Amazon".
Definition RESULT_ITEM_SELECTOR := "div[data-component-type='s-search-result']".
Definition TITLE_SELECTOR := "h2 a span.a-text-normal".
Definition PRICE_WHOLE_SELECTOR := "span.a-price-whole".
Definition PRICE_FRACTION_SELECTOR := "span.a-price-fraction".
Definition LINK_SELECTOR := "h2 a.a-link-normal".
Definition SPONSORED_SELECTOR :=
  "span[data-component-type=" ++ String Py.dquote "s-ads-indicator-text"
  ++ String Py.dquote "]".
Definition PRICE_OFFSCREEN_SELECTOR := "span.a-price > span.a-offscreen".

(** The block signature: CAPTCHA or robot-check text. *)
Definition is_blocked (response : Response) : bool :=
  Py.contains "captcha" (Py.lower (text response))
  || Py.contains "robot check" (Py.lower (text response)).

Definition listing_title (list_item : ListItem) : string :=
  match select_one list_item TITLE_SELECTOR with
  | Some title_element => get_text title_element
  | None => "N/A"
  end.

(** The link made of an [href]. *)
Definition resolve_link (href : string) : option string :=
  if Py.startswith href "/" then Some ("https://www.amazon.com" ++ href)
  else if Py.startswith href "http" then Some href
  else None.

Definition listing_link (list_item : ListItem) : option string :=
  match select_one list_item LINK_SELECTOR with
  | Some link_element =>
      match href link_element with
      | Some h => resolve_link h
      | None => None
      end
  | None => None
  end.

Definition listing_price (list_item : ListItem) : option pyfloat :=
  match select_one list_item PRICE_WHOLE_SELECTOR,
        select_one list_item PRICE_FRACTION_SELECTOR with
  | Some price_whole_el, Some price_fraction_el =>
      _clean_price (JStr (get_text price_whole_el ++ get_text price_fraction_el))
  | _, _ =>
      match select_one list_item PRICE_OFFSCREEN_SELECTOR with
      | Some price_container => _clean_price (JStr (get_text price_container))
      | None => None
      end
  end.

Definition process_listing (it : ItemRequest) (list_item : ListItem) : M (option Result) :=
  match select_one list_item SPONSORED_SELECTOR with
  | Some _ => ret None
  | None =>
      let title := listing_title list_item in
      let link := listing_link list_item in
      let price := listing_price list_item in
      if String.eqb title "N/A" || Py.is_None price || Py.is_None link then ret None
      else
        let result := mkResult platform_name (name it) (JStr title) price None link in
        if BasePlatform._apply_filters result it then ret (Some result) else ret None
  end.

(** [AmazonPlatform.search] *)
Definition search (it : ItemRequest) (session_get : M Response)
  : list LogRecord * M (list Result) :=
  let '(log1, response) := BasePlatform._make_request platform_name session_get in
  match response with
  | None => (log1, ret [])
  | Some response =>
      if is_blocked response
      then ((log1 ++ [mkLog platform_name Blocked])%list, ret [])
      else
        let '(log2, soup) := BasePlatform._parse_html platform_name response in
        match soup with
        | None => ((log1 ++ log2)%list, ret [])
        | Some soup =>
            let list_items := select soup RESULT_ITEM_SELECTOR in
            ((log1 ++ log2)%list,
             ret (flat_map (fun list_item => listing_results (process_listing it list_item))
                           list_items))
        end
  end.

End AmazonPlatform.

(** ** [WalmartPlatform] *)

Module WalmartPlatform.

Definition platform_name := "Walmart".
Definition SCRIPT_SELECTOR := "script[type='application/json']".
Definition RESULT_ITEM_SELECTOR := "div[data-item-id]".
Definition TITLE_SELECTOR := "span[data-automation-id='product-title']".
Definition PRICE_SELECTOR := "div[data-automation-id='product-price'] .f1".
Definition LINK_SELECTOR := "a[link-identifier]".

(** The block signature: an error URL or a status other than 200. *)
Definition is_blocked (response : Response) : bool :=
  Py.contains "error" (Py.lower (url response))
  || negb (status_code response =? 200)%Z.

(** The body of the loop over the items of the embedded JSON. *)
Definition process_item_data (it : ItemRequest) (item_data : json) : M (option Result) :=
  t <- PyVal.get item_data "title" (JStr "") ;;
  title <- PyVal.strip t ;;
  price_info <- PyVal.get item_data "primaryOffer" (JObj []) ;;
  offer_price <- PyVal.get price_info "offerPrice" JNull ;;
  price_arg <- (if PyVal.truthy offer_price then ret offer_price
                else PyVal.get price_info "minPrice" JNull) ;;
  let price := _clean_price price_arg in
  link_path <- PyVal.get item_data "canonicalUrl" JNull ;;
  let link :=
    if PyVal.truthy link_path
    then Some ("https://www.walmart.com" ++ PyVal.str link_path) else None in
  if Py.is_empty title || Py.is_None price || Py.is_falsy link then ret None
  else
    let result := mkResult platform_name (name it) (JStr title) price None link in
    if BasePlatform._apply_filters result it then ret (Some result) else ret None.

(** The items of one script: [data.get ('searchContent', {}).get ('preso',
    {}).get ('items', [])], when truthy, as the loop will see them. *)
Definition script_items (script : Script) : M (option (list json)) :=
  data <- loads script ;;
  search_content <- PyVal.get data "searchContent" (JObj []) ;;
  preso <- PyVal.get search_content "preso" (JObj []) ;;
  items_data <- PyVal.get preso "items" (JArr []) ;;
  if PyVal.truthy items_data then
    _ <- PyVal.len items_data ;;
    entries <- PyVal.iter items_data ;;
    ret (Some entries)
  else ret None.

(** One turn of the loop over the scripts: the log, and the results when
    the script is the one with the items ([found_json = True; break]). *)
Definition script_step (it : ItemRequest) (script : Script)
  : list LogRecord * option (list Result) :=
  if Py.contains "searchContent" (script_text script) then
    match script_items script with
    | inr (Some entries) =>
        ([], Some (flat_map (fun item_data => listing_results (process_item_data it item_data))
                            entries))
    | inr None => ([], None)
    | inl JSONDecodeError => ([], None)
    | inl e => ([mkLog platform_name (ScriptTagError e)], None)
    end
  else ([], None).

(** Strategy 1: the log, the results and [found_json]. *)
Fixpoint scan_scripts (it : ItemRequest) (scripts : list Script)
  : list LogRecord * list Result * bool :=
  match scripts with
  | [] => ([], [], false)
  | script :: rest =>
      match script_step it script with
      | (lg, Some results) => (lg, results, true)
      | (lg, None) =>
          let '(lg', results, found_json) := scan_scripts it rest in
          ((lg ++ lg')%list, results, found_json)
      end
  end.

Definition listing_title (list_item : ListItem) : string :=
  match select_one list_item TITLE_SELECTOR with
  | Some title_element => get_text title_element
  | None => "N/A"
  end.

(** The link made of an [href]. *)
Definition resolve_link (href : string) : string :=
  if Py.startswith href "/" then "https://www.walmart.com" ++ href else href.

Definition listing_link (list_item : ListItem) : option string :=
  match select_one list_item LINK_SELECTOR with
  | Some link_element => option_map resolve_link (href link_element)
  | None => None
  end.

Definition listing_price (list_item : ListItem) : option pyfloat :=
  match select_one list_item PRICE_SELECTOR with
  | Some price_element => _clean_price (JStr (get_text price_element))
  | None => None
  end.

(** Strategy 2: the body of the loop over [list_items]. *)
Definition process_listing (it : ItemRequest) (list_item : ListItem) : M (option Result) :=
  let title := listing_title list_item in
  let link := listing_link list_item in
  let price := listing_price list_item in
  if String.eqb title "N/A" || Py.is_None price || Py.is_None link then ret None
  else
    let result := mkResult platform_name (name it) (JStr title) price None link in
    if BasePlatform._apply_filters result it then ret (Some result) else ret None.

(** [WalmartPlatform.search] *)
Definition search (it : ItemRequest) (session_get : M Response)
  : list LogRecord * M (list Result) :=
  let '(log1, response) := BasePlatform._make_request platform_name session_get in
  match response with
  | None => (log1, ret [])
  | Some response =>
      if is_blocked response
      then ((log1 ++ [mkLog platform_name Blocked])%list, ret [])
      else
        let '(log2, soup) := BasePlatform._parse_html platform_name response in
        match soup with
        | None => ((log1 ++ log2)%list, ret [])
        | Some soup =>
            let '(log3, results, found_json) :=
              scan_scripts it (select_scripts soup SCRIPT_SELECTOR) in
            let results :=
              if negb found_json then
                (results
                 ++ flat_map (fun list_item => listing_results (process_listing it list_item))
                             (select soup RESULT_ITEM_SELECTOR))%list
              else results in
            ((log1 ++ log2 ++ log3)%list, ret results)
        end
  end.

End WalmartPlatform.

(** ** [BestbuyPlatform] *)

Module BestbuyPlatform.

Definition platform_name := "BestBuy".
Definition SCRIPT_SELECTOR_BB := "script[type='application/ld+json']".
Definition RESULT_ITEM_SELECTOR_BB := "li.sku-item".
Definition TITLE_SELECTOR_BB := "h4.sku-title a".
Definition PRICE_SELECTOR_BB := "div.priceView-hero-price span[aria-hidden='true']".
Definition LINK_SELECTOR_BB := "h4.sku-title a".

(** The block signature: the text "Access Denied". *)
Definition is_blocked (response : Response) : bool :=
  Py.contains "Access Denied" (text response).

(** The link made of the ['url'] of a product. *)
Definition resolve_url (link : string) : string :=
  if negb (Py.startswith link "http") then
    if Py.startswith link "/" then "https://www.bestbuy.com" ++ link
    else "https://www.bestbuy.com/" ++ link
  else link.

(** [offers[0] if offers else {}] when [offers] is a list. *)
Definition first_offer (offers : json) : json :=
  match offers with
  | JArr (o :: _) => o
  | JArr [] => JObj []
  | _ => offers
  end.

(** The inner [try] of the loop over the JSON-LD entries. *)
Definition process_product (it : ItemRequest) (item_data : json) : M (option Result) :=
  title <- PyVal.get item_data "name" JNull ;;
  offers <- PyVal.get item_data "offers" (JObj []) ;;
  let offers := first_offer offers in
  p <- PyVal.get offers "price" JNull ;;
  let price := _clean_price p in
  link <- PyVal.get item_data "url" JNull ;;
  if negb (PyVal.truthy title) || Py.is_None price || negb (PyVal.truthy link) then ret None
  else
    absolute <- PyVal.startswith link "http" ;;
    match link with
    | JStr l =>
        let result :=
          mkResult platform_name (name it) title price None (Some (resolve_url l)) in
        if BasePlatform._apply_filters result it then ret (Some result) else ret None
    | _ => raise AttributeError
    end.

(** The loop over the entries of one JSON-LD block: the results so far
    grow in place, so they survive an exception that leaves the loop. *)
Fixpoint process_entries (it : ItemRequest) (entries : list json) (results : list Result)
  : list Result * M unit :=
  match entries with
  | [] => (results, ret tt)
  | item_entry :: rest =>
      match (item_data <- PyVal.get item_entry "item" item_entry ;;
             type <- PyVal.get item_data "@type" JNull ;;
             ret (item_data, type)) with
      | inl e => (results, raise e)
      | inr (item_data, type) =>
          if negb (PyVal.eq_str type "Product") then process_entries it rest results
          else
            process_entries it rest
              (results ++ listing_results (process_product it item_data))%list
      end
  end.

(** The entries of one script, when there are some. *)
Definition script_items (script : Script) : M (option (list json)) :=
  data <- loads script ;;
  items_data <-
    (if PyVal.is_list data then ret data
     else if PyVal.is_dict data then
       type <- PyVal.get data "@type" JNull ;;
       if PyVal.eq_str type "ItemList" then PyVal.get data "itemListElement" (JArr [])
       else ret (JArr [])
     else ret (JArr [])) ;;
  if PyVal.truthy items_data then
    _ <- PyVal.len items_data ;;
    entries <- PyVal.iter items_data ;;
    ret (Some entries)
  else ret None.

(** [except json.JSONDecodeError: continue / except Exception: log.error] *)
Definition script_handler (e : exn) : list LogRecord :=
  match e with
  | JSONDecodeError => []
  | _ => [mkLog platform_name (ScriptTagError e)]
  end.

(** One turn of the loop over the scripts: the log, the results, and
    whether [found_json] was set. *)
Definition script_step (it : ItemRequest) (script : Script) (results : list Result)
  : list LogRecord * list Result * bool :=
  match script_items script with
  | inr (Some entries) =>
      match process_entries it entries results with
      | (results', inr _) => ([], results', true)
      | (results', inl e) => (script_handler e, results', false)
      end
  | inr None => ([], results, false)
  | inl e => (script_handler e, results, false)
  end.

(** Strategy 1: there is no [break], every script is read. *)
Fixpoint scan_scripts (it : ItemRequest) (scripts : list Script) (results : list Result)
  : list LogRecord * list Result * bool :=
  match scripts with
  | [] => ([], results, false)
  | script :: rest =>
      let '(lg, results', found) := script_step it script results in
      let '(lg', results'', found') := scan_scripts it rest results' in
      ((lg ++ lg')%list, results'', found || found')
  end.

Definition listing_title (list_item : ListItem) : string :=
  match select_one list_item TITLE_SELECTOR_BB with
  | Some title_element => get_text title_element
  | None => "N/A"
  end.

(** The link made of an [href]. *)
Definition resolve_link (href : string) : string :=
  if negb (Py.startswith href "http") then "https://www.bestbuy.com" ++ href else href.

Definition listing_link (list_item : ListItem) : option string :=
  match select_one list_item LINK_SELECTOR_BB with
  | Some link_element => option_map resolve_link (href link_element)
  | None => None
  end.

Definition listing_price (list_item : ListItem) : option pyfloat :=
  match select_one list_item PRICE_SELECTOR_BB with
  | Some price_element => _clean_price (JStr (get_text price_element))
  | None => None
  end.

(** Strategy 2: the body of the loop over [list_items]. *)
Definition process_listing (it : ItemRequest) (list_item : ListItem) : M (option Result) :=
  let title := listing_title list_item in
  let link := listing_link list_item in
  let price := listing_price list_item in
  if String.eqb title "N/A" || Py.is_None price || Py.is_None link then ret None
  else
    let result := mkResult platform_name (name it) (JStr title) price None link in
    if BasePlatform._apply_filters result it then ret (Some result) else ret None.

(** [BestbuyPlatform.search] *)
Definition search (it : ItemRequest) (session_get : M Response)
  : list LogRecord * M (list Result) :=
  let '(log1, response) := BasePlatform._make_request platform_name session_get in
  match response with
  | None => (log1, ret [])
  | Some response =>
      if is_blocked response
      then ((log1 ++ [mkLog platform_name Blocked])%list, ret [])
      else
        let '(log2, soup) := BasePlatform._parse_html platform_name response in
        match soup with
        | None => ((log1 ++ log2)%list, ret [])
        | Some soup =>
            let '(log3, results, found_json) :=
              scan_scripts it (select_scripts soup SCRIPT_SELECTOR_BB) [] in
            let results :=
              if negb found_json then
                (results
                 ++ flat_map (fun list_item => listing_results (process_listing it list_item))
                             (select soup RESULT_ITEM_SELECTOR_BB))%list
              else results in
            ((log1 ++ log2 ++ log3)%list, ret results)
        end
  end.

End BestbuyPlatform.

(** ** The four adapters *)

Inductive Platform : Type := EBAY | AMAZON | WALMART | BESTBUY.

(** [platform_obj.search (item)], by platform. *)
Definition search (p : Platform) (it : ItemRequest) (session_get : M Response)
  : list LogRecord * M (list Result) :=
  match p with
  | EBAY => EbayPlatform.search it session_get
  | AMAZON => AmazonPlatform.search it session_get
  | WALMART => WalmartPlatform.search it session_get
  | BESTBUY => BestbuyPlatform.search it session_get
  end.

Definition platform_name (p : Platform) : string :=
  match p with
  | EBAY => EbayPlatform.platform_name
  | AMAZON => AmazonPlatform.platform_name
  | WALMART => WalmartPlatform.platform_name
  | BESTBUY => BestbuyPlatform.platform_name
  end.

(** The block signature each adapter looks for; eBay has none. *)
Definition block_signature (p : Platform) (response : Response) : bool :=
  match p with
  | EBAY => false
  | AMAZON => AmazonPlatform.is_blocked response
  | WALMART => WalmartPlatform.is_blocked response
  | BESTBUY => BestbuyPlatform.is_blocked response
  end.

(** ** [input_processor] *)

(** [float (v)] for a decoded value.  An [int] too large for a float
    raises [OverflowError]. *)
Definition float_overflow_bound : Z := (2 ^ 1024 - 2 ^ 970)%Z.

Definition py_float (v : json) : M pyfloat :=
  match v with
  | JNull => raise TypeError
  | JBool b => ret (Finite (if b then 1 else 0))
  | JInt z =>
      if (Z.abs z <? float_overflow_bound)%Z then ret (Finite (inject_Z z))
      else raise OverflowError
  | JFloat r => ret (PyVal.float_value r)
  | JStr s =>
      match FloatParse.float_of_string s with
      | Some f => ret f
      | None => raise ValueError
      end
  | JArr _ | JObj _ => raise TypeError
  end.

(** An item dict after validation: the value under ['name'], the floats
    now under ['max_price'] and ['min_seller_rating'], and the other
    members. *)
Record ItemDict : Type := mkItemDict {
  d_name : json;
  d_max_price : pyfloat;
  d_min_seller_rating : pyfloat;
  d_others : list (string * json)
}.

(** The input file: whether the path exists, what reading it gives, and
    what [json.loads] makes of the content. *)
Record InputFile : Type := mkInputFile {
  path_exists : bool;
  read : M string;
  json_loads : M json
}.

Module input_processor.

Definition is_coercion_error (e : exn) : bool :=
  match e with
  | ValueError | TypeError => true
  | _ => false
  end.

Definition other_members (m : list (string * json)) : list (string * json) :=
  List.filter
    (fun kv => negb (String.eqb (fst kv) "name" || String.eqb (fst kv) "max_price"
                     || String.eqb (fst kv) "min_seller_rating")) m.

(** The body of the loop over the decoded list: [inr None] when the
    item is skipped. *)
Definition validate_item (v : json) : M (option ItemDict) :=
  match v with
  | JObj m =>
      match PyVal.lookup "name" m, PyVal.lookup "max_price" m with
      | Some n, Some raw_max =>
          mp <- try_except (f <- py_float raw_max ;; ret (Some f)) is_coercion_error None ;;
          match mp with
          | None => ret None
          | Some max_price =>
              let raw_min :=
                match PyVal.lookup "min_seller_rating" m with
                | Some x => x
                | None => JInt 0
                end in
              min_rating <- try_except (py_float raw_min) is_coercion_error (Finite 0) ;;
              ret (Some (mkItemDict n max_price min_rating (other_members m)))
          end
      | _, _ => ret None
      end
  | _ => ret None
  end.

Fixpoint validate_items (data : list json) : M (list ItemDict) :=
  match data with
  | [] => ret []
  | v :: rest =>
      o <- validate_item v ;;
      valid_items <- validate_items rest ;;
      ret (match o with Some d => d :: valid_items | None => valid_items end)
  end.

(** [read_input_file]: every exception ends in the empty list. *)
Definition read_input_file (f : InputFile) : list ItemDict :=
  if negb (path_exists f) then []
  else
    match (content <- read f ;;
           if Py.is_empty (Py.strip content) then ret []
           else
             data <- json_loads f ;;
             match data with
             | JArr items => validate_items items
             | _ => ret []
             end) with
    | inr valid_items => valid_items
    | inl _ => []
    end.

End input_processor.

(** ** [database_manager] *)

(** A row of the table [listings]. *)
Record Row : Type := mkRow {
  row_id : Z;
  row_platform : string;
  row_search_term : string;
  row_title : json;
  row_price : option pyfloat;
  row_seller_rating : option pyfloat;
  row_link : option string;
  found_timestamp : Z
}.

Module database_manager.

Definition Db : Type := list Row.

(** Binding a title: a list or a dict is not supported by [sqlite3]
    (an [sqlite3.Error]); an [int] outside 64 bits raises [OverflowError]. *)
Definition bind_title (v : json) : M json :=
  match v with
  | JArr _ | JObj _ => raise SqliteError
  | JInt z =>
      if (- 2 ^ 63 <=? z)%Z && (z <? 2 ^ 63)%Z then ret v else raise OverflowError
  | _ => ret v
  end.

Definition same_link (l : string) (r : Row) : bool :=
  match row_link r with
  | Some l' => String.eqb l l'
  | None => false
  end.

(** The UNIQUE constraint on [link]: NULL never conflicts. *)
Definition link_conflict (db : Db) (l : option string) : bool :=
  match l with
  | Some l => existsb (same_link l) db
  | None => false
  end.

(** AUTOINCREMENT: one more than the largest id. *)
Definition next_id (db : Db) : Z := (1 + fold_right (fun r m => Z.max (row_id r) m) 0 db)%Z.

(** [cursor.execute (insert_sql, data_tuple)]: the table after it and
    [cursor.rowcount]. *)
Definition execute_insert (now : Z) (db : Db) (result : Result) : M (Db * nat) :=
  t <- bind_title (title result) ;;
  if link_conflict db (link result) then ret (db, 0%nat)
  else
    ret ((db ++ [mkRow (next_id db) (platform result) (item result) t (price result)
                       (seller_rating result) (link result) now])%list, 1%nat).

(** The loop of [save_results] over the results, from the counters
    [(inserted_count, ignored_count)]. *)
Fixpoint save_loop (now : Z) (db : Db) (counts : nat * nat) (results : list Result)
  : M (Db * (nat * nat)) :=
  match results with
  | [] => ret (db, counts)
  | result :: rest =>
      let '(inserted_count, ignored_count) := counts in
      match execute_insert now db result with
      | inr (db', rowcount) =>
          if (0 <? rowcount)%nat
          then save_loop now db' (S inserted_count, ignored_count) rest
          else if negb (Py.is_falsy (link result))
               then save_loop now db' (inserted_count, S ignored_count) rest
               else save_loop now db' counts rest
      | inl SqliteError => save_loop now db counts rest
      | inl e => raise e
      end
  end.

(** [save_results]: the table after the call and the counters it logs,
    [None] when it returns at once.  An exception other than
    [sqlite3.Error] leaves the function before the commit. *)
Definition save_results (now : Z) (db : Db) (results : list Result)
  : Db * M (option (nat * nat)) :=
  match results with
  | [] => (db, ret None)
  | _ =>
      match save_loop now db (0%nat, 0%nat) results with
      | inr (db', counts) => (db', ret (Some counts))
      | inl e => (db, raise e)
      end
  end.

End database_manager.

(** ** [main_shopper] *)

Module main_shopper.

(** A loaded platform: its name and the outcome of its [search]. *)
Definition PlatformInstance : Type := (string * (ItemDict -> M (list Result)))%type.

(** One call of [platform_obj.search (item)] under [try ... except
    Exception]: what is added to [all_results]. *)
Definition platform_results (platform_obj : ItemDict -> M (list Result)) (it : ItemDict)
  : list Result :=
  match platform_obj it with
  | inr results => results
  | inl _ => []
  end.

(** The two loops: over the items, and for each over the platforms. *)
Definition search_platforms (platform_instances : list PlatformInstance)
  (items_to_search : list ItemDict) : list Result :=
  flat_map
    (fun it => flat_map (fun p => platform_results (snd p) it) platform_instances)
    items_to_search.

(** What a cycle did: the list handed to [save_results] ([None] when the
    cycle ended before), the table after it, and what the save raised. *)
Record Cycle : Type := mkCycle {
  handed_to_save : option (list Result);
  db_after : database_manager.Db;
  save_outcome : M (option (nat * nat))
}.

(** [run_search_cycle] *)
Definition run_search_cycle (platform_instances : list PlatformInstance)
  (input_file : InputFile) (now : Z) (db : database_manager.Db) : Cycle :=
  match platform_instances with
  | [] => mkCycle None db (ret None)
  | _ =>
      let items_to_search := input_processor.read_input_file input_file in
      match items_to_search with
      | [] => mkCycle None db (ret None)
      | _ =>
          let all_results := search_platforms platform_instances items_to_search in
          let '(db', outcome) := database_manager.save_results now db all_results in
          mkCycle (Some all_results) db' outcome
      end
  end.

(** The item a platform's [search] reads from the dict: [quote_plus]
    raises [TypeError] when the name is not a string. *)
Definition with_item (search : ItemRequest -> M (list Result)) (d : ItemDict)
  : M (list Result) :=
  match d_name d with
  | JStr s => search (mkItem s (d_max_price d) (d_min_seller_rating d))
  | _ => raise TypeError
  end.

End main_shopper.

(** ** [config_manager] *)

(** The exceptions of [configparser] the code meets. *)
Inductive config_error : Type :=
| NoSectionError | NoOptionError | InterpolationError.

(** A parsed configuration, seen through [config.get (section, key)]. *)
Definition Config : Type := string -> string -> config_error + string.

Module config_manager.

(** [c] ends a line for [str.splitlines]: LF, VT, FF, CR, FS, GS, RS. *)
Definition is_linebreak (c : ascii) : bool :=
  ((10 <=? Py.ord c)%nat && (Py.ord c <=? 13)%nat)
  || ((28 <=? Py.ord c)%nat && (Py.ord c <=? 30)%nat).

Fixpoint splitlines_from (after_cr : bool) (cur s : string) : list string :=
  match s with
  | EmptyString => if Py.is_empty cur then [] else [cur]
  | String c r =>
      if after_cr && (Py.ord c =? 10)%nat then splitlines_from false cur r
      else if is_linebreak c then cur :: splitlines_from (Py.ord c =? 13)%nat EmptyString r
      else splitlines_from false (cur ++ String c EmptyString)%string r
  end.

(** [s.splitlines ()] *)
Definition splitlines (s : string) : list string := splitlines_from false EmptyString s.

(** [int (s)] for a string: [None] is [ValueError].  (The limit recent
    Pythons put on the number of digits is not modelled.) *)
Definition int_of_string (s : string) : option Z :=
  let '(neg, body) := FloatParse.take_sign (Py.strip s) in
  match FloatParse.digitpart body with
  | Some d => Some (if neg then (- FloatParse.digits_value d)%Z else FloatParse.digits_value d)
  | None => None
  end.

(** [config.getint (section, key)]: [inr None] is [ValueError]. *)
Definition getint (config : Config) (section key : string) : config_error + option Z :=
  match config section key with
  | inr value => inr (int_of_string value)
  | inl e => inl e
  end.

Definition INTERVAL_KEY := "schedule_interval_minutes".

(** [config.add_section ('General')] when it is missing, then
    [config.set ('General', 'schedule_interval_minutes', '60')]. *)
Definition with_default_interval (config : Config) : Config :=
  fun section key =>
    if String.eqb section "General" then
      if String.eqb key INTERVAL_KEY then inr "60"
      else match config section key with
           | inl NoSectionError => inl NoOptionError
           | x => x
           end
    else config section key.

(** [load_config], as the module keeps it: [None] when the file does not
    exist or [configparser] raises ([config = None]). *)
Definition load_config (file_exists : bool) (parsed : option Config) : option Config :=
  if negb file_exists then None
  else
    match parsed with
    | None => None
    | Some config =>
        match getint config "General" INTERVAL_KEY with
        | inr (Some _) => Some config
        | inr None | inl NoSectionError | inl NoOptionError =>
            Some (with_default_interval config)
        | inl InterpolationError => None
        end
    end.

(** [get_int_setting] *)
Definition get_int_setting (config : option Config) (section key : string) (fallback : Z)
  : config_error + Z :=
  match config with
  | None => inr fallback
  | Some config =>
      match getint config section key with
      | inr (Some z) => inr z
      | inr None | inl NoSectionError | inl NoOptionError => inr fallback
      | inl e => inl e
      end
  end.

(** [get_enabled_platforms]: [config.get] is called with [fallback=''],
    so a missing section or option reads as the empty string. *)
Definition get_enabled_platforms (config : option Config) : config_error + list string :=
  match config with
  | None => inr []
  | Some config =>
      match (match config "Platforms" "enabled_platforms" with
             | inl NoSectionError | inl NoOptionError => inr EmptyString
             | x => x
             end) with
      | inr platforms_str =>
          inr (List.map Py.strip
                 (List.filter
                    (fun p => negb (Py.is_empty (Py.strip p))
                              && negb (Py.startswith (Py.strip p) ";"))
                    (splitlines platforms_str)))
      | inl NoSectionError | inl NoOptionError => inr []
      | inl e => inl e
      end
  end.

End config_manager.

(** ** [main_shopper]: start-up *)

(** What [getattr (module, class_name)] finds: something that is not a
    class, or a class, with whether it derives from [BasePlatform] and
    what calling it gives. *)
Inductive ModuleAttr (A : Type) : Type :=
| NotAClass
| Class (is_platform : bool) (instantiate : M A).

Arguments NotAClass {A}.
Arguments Class {A} is_platform instantiate.

Module startup.

(** The interval the scheduler is given: [None] when [cfg.config] is
    [None] and the program exits. *)
Definition schedule_interval (config : option Config) : option (config_error + Z) :=
  match config with
  | None => None
  | Some _ =>
      Some (match config_manager.get_int_setting config "General"
                    config_manager.INTERVAL_KEY 60 with
            | inr interval_minutes =>
                inr (if (interval_minutes <=? 0)%Z then 60%Z else interval_minutes)
            | inl e => inl e
            end)
  end.

Definition upper_char (c : ascii) : ascii :=
  if (97 <=? Py.ord c)%nat && (Py.ord c <=? 122)%nat then ascii_of_nat (Py.ord c - 32) else c.

(** [s.capitalize ()] *)
Definition capitalize (s : string) : string :=
  match s with
  | EmptyString => EmptyString
  | String c r => String (upper_char c) (Py.lower r)
  end.

(** [platforms[name] = value]: a key that is there keeps its place. *)
Fixpoint dict_set {A} (k : string) (v : A) (d : list (string * A)) : list (string * A) :=
  match d with
  | [] => [(k, v)]
  | (k', v') :: r => if String.eqb k k' then (k, v) :: r else (k', v') :: dict_set k v r
  end.

Section Loader.

Variable A : Type.

(** [import_module (module_name)]: the module, seen through [getattr]
    ([None] is [AttributeError]), or the exception the import raises. *)
Variable import_module : string -> M (string -> option (ModuleAttr A)).

(** The body of the [try] for one name: the instance to register, if any. *)
Definition load_one (name : string) : M (option A) :=
  let module_name := ("platform_modules." ++ name ++ "_module")%string in
  let class_name := (capitalize name ++ "Platform")%string in
  module <- import_module module_name ;;
  match module class_name with
  | None => raise AttributeError
  | Some NotAClass => raise TypeError
  | Some (Class true instantiate) => inst <- instantiate ;; ret (Some inst)
  | Some (Class false _) => ret None
  end.

Fixpoint load_names (names : list string) (platforms : list (string * A))
  : list (string * A) :=
  match names with
  | [] => platforms
  | name :: rest =>
      match load_one name with
      | inr (Some inst) => load_names rest (dict_set name inst platforms)
      | _ => load_names rest platforms
      end
  end.

(** [load_platform_modules], given what [get_enabled_platforms] returned. *)
Definition load_platform_modules (enabled_platform_names : list string)
  : list (string * A) :=
  load_names enabled_platform_names [].

End Loader.

Arguments load_one {A} import_module name.
Arguments load_names {A} import_module names platforms.
Arguments load_platform_modules {A} import_module enabled_platform_names.

End startup.

(** * Specification-side definitions and sample inputs *)

Import database_manager main_shopper input_processor.

(** The specification of price cleaning, in the words of the spec: what
    is left of the raw text when every character except digits and the
    decimal point is removed, and the number that remainder denotes. *)
Module PriceSpec.




(** The digits of the remainder, in order. *)
Definition digits (c : string) : string := Py.filter Py.isdigit c.

(** The number of digits after the first decimal point. *)
Fixpoint scale (c : string) : nat :=
  match c with
  | EmptyString => 0
  | String x r => if FloatParse.is_point x then String.length (digits r) else scale r
  end.


(** The number denoted: the digits as an integer, divided by ten to the
    number of digits after the point. *)
Definition value (c : string) : Q :=
  (inject_Z (FloatParse.digits_value (digits c))
   / inject_Z (10 ^ Z.of_nat (scale c)))%Q.


End PriceSpec.


Definition sample_item : ItemRequest :=
  mkItem "RTX 3080" (Finite 500) (Finite 95).

Definition sample_result (p : option pyfloat) (rating : option pyfloat) : Result :=
  mkResult "eBay" "RTX 3080" (JStr "RTX 3080 card") p rating
           (Some "https://www.ebay.com/itm/123").

(** [sep] occurs in [s] at an index below [n]. *)
Fixpoint occurs_before (sep s : string) (n : nat) : bool :=
  match n with
  | O => false
  | S k =>
      String.prefix sep s
      || match s with
         | EmptyString => false
         | String _ r => occurs_before sep r k
         end
  end.

Definition tag (t : string) : Tag := mkTag t None.

(** An eBay listing as a table of what each selector finds. *)
Definition ebay_listing (title_text price_text : string) (h : option string)
  (seller : option string) : ListItem :=
  mkListItem (fun sel =>
    if String.eqb sel EbayPlatform.TITLE_SELECTOR then Some (tag title_text)
    else if String.eqb sel EbayPlatform.PRICE_SELECTOR then Some (tag price_text)
    else if String.eqb sel EbayPlatform.LINK_SELECTOR then Some (mkTag "" h)
    else if String.eqb sel EbayPlatform.SELLER_INFO_SELECTOR then option_map tag seller
    else None).

Definition range_listing : ListItem :=
  ebay_listing "USB cable" "$5.00 to $7.50" (Some "https://www.ebay.com/itm/7")
               (Some "seller (120) 99.1%").

Definition range_result : Result :=
  mkResult "eBay" "usb cable" (JStr "USB cable") (Some (Finite (500 # 100)))
           (Some (Finite (991 # 10))) (Some "https://www.ebay.com/itm/7").

(** An Amazon listing: what each selector finds. *)
Definition amazon_listing (title_text price_text : string) (h : option string) : ListItem :=
  mkListItem (fun sel =>
    if String.eqb sel AmazonPlatform.TITLE_SELECTOR then Some (tag title_text)
    else if String.eqb sel AmazonPlatform.LINK_SELECTOR then Some (mkTag "" h)
    else if String.eqb sel AmazonPlatform.PRICE_OFFSCREEN_SELECTOR then Some (tag price_text)
    else None).

(** A Walmart listing: what each selector finds. *)
Definition walmart_listing (title_text price_text : string) (h : option string) : ListItem :=
  mkListItem (fun sel =>
    if String.eqb sel WalmartPlatform.TITLE_SELECTOR then Some (tag title_text)
    else if String.eqb sel WalmartPlatform.PRICE_SELECTOR then Some (tag price_text)
    else if String.eqb sel WalmartPlatform.LINK_SELECTOR then Some (mkTag "" h)
    else None).

(** A page whose only content is the listing containers [items] that
    [sel] selects (no script). *)
Definition page_of (sel : string) (items : list ListItem) : Response :=
  mkResponse "https://shop.example/search" 200 "<html>...</html>"
    (inr (mkSoup (fun s => if String.eqb s sel then items else [])
                 (fun _ => []))).

Definition captcha_page : Response :=
  mkResponse "https://www.amazon.com/errors/validateCaptcha" 200
    "<html>Enter the characters you see below. Type the CAPTCHA</html>"
    (inr (mkSoup (fun _ => [amazon_listing "RTX 3080" "$450.00" (Some "/dp/B01")])
                 (fun _ => []))).

Definition walmart_redirect_page : Response :=
  mkResponse "https://www.walmart.com/blocked?error=true" 200 "<html>...</html>"
    (parsed captcha_page).

Definition access_denied_page : Response :=
  mkResponse "https://www.bestbuy.com/site/searchpage.jsp" 200 "<h1>Access Denied</h1>"
    (parsed captcha_page).


Definition ebay_page : Response :=
  page_of EbayPlatform.RESULT_ITEM_SELECTOR
    [range_listing;
     ebay_listing "Loose cable" "" (Some "https://www.ebay.com/itm/8") None].

(** Scenario A of the spec: with a maximum price of 500 and a minimum
    rating of 95, the listing at 450 rated 97% is kept, the one at 550
    and the one at 480 rated 90% are dropped. *)
Definition scenario_a_page : Response :=
  page_of EbayPlatform.RESULT_ITEM_SELECTOR
    [ebay_listing "RTX 3080 FE" "$450.00" (Some "https://www.ebay.com/itm/1")
                  (Some "gpu_seller (2,310) 97%");
     ebay_listing "RTX 3080 Ti" "$550.00" (Some "https://www.ebay.com/itm/2")
                  (Some "gpu_seller (2,310) 97%");
     ebay_listing "RTX 3080 used" "$480.00" (Some "https://www.ebay.com/itm/3")
                  (Some "other_seller (18) 90%")].

Definition tv_product : json :=
  JObj [("@type", JStr "Product"); ("name", JStr "OLED TV");
        ("offers", JObj [("price", JStr "450.00")]); ("url", JStr "/site/oled-tv")].

Definition list_item (position : Z) (it : json) : json :=
  JObj [("@type", JStr "ListItem"); ("position", JInt position); ("item", it)].

Definition item_list (entries : list json) : json :=
  JObj [("@type", JStr "ItemList"); ("itemListElement", JArr entries)].

(** A Best Buy page with one JSON-LD block and no listing container. *)
Definition bestbuy_page (data : json) : Response :=
  mkResponse "https://www.bestbuy.com/site/searchpage.jsp?st=tv" 200 "<html>...</html>"
    (inr (mkSoup (fun _ => [])
                 (fun s => if String.eqb s BestbuyPlatform.SCRIPT_SELECTOR_BB
                           then [mkScript "{...}" (inr data)] else []))).

Definition tv_result : Result :=
  mkResult "BestBuy" "tv" (JStr "OLED TV") (Some (Finite (45000 # 100))) None
           (Some "https://www.bestbuy.com/site/oled-tv").

(** A result the table can take and count: its title can be bound, and
    its link is a non-empty string. *)
Definition storable (r : Result) : bool :=
  match bind_title (title r) with
  | inr _ => true
  | inl _ => false
  end
  && negb (Py.is_falsy (link r)).

Definition stored_tv : Result :=
  mkResult "eBay" "tv" (JStr "OLED TV") (Some (Finite 450)) (Some (Finite 97))
           (Some "https://www.ebay.com/itm/123").

Definition stored_cable : Result :=
  mkResult "Walmart" "cable" (JStr "USB cable") (Some (Finite 5)) None
           (Some "https://www.walmart.com/ip/9").

(** The file of scenario D: one item. *)
Definition one_item_file : InputFile :=
  mkInputFile true (inr "[{...}]")
    (inr (JArr [JObj [("name", JStr "tv"); ("max_price", JInt 500)]])).

Definition tv_item : ItemDict := mkItemDict (JStr "tv") (Finite 500) (Finite 0) [].

(** Four platforms: the first raises, the others answer. *)
Definition scenario_platforms : list PlatformInstance :=
  [("ebay", fun _ => inl AttributeError);
   ("amazon", fun _ => inr []);
   ("walmart", fun _ => inr [stored_cable]);
   ("bestbuy",
    with_item (fun it =>
      snd (search BESTBUY it (inr (bestbuy_page (item_list [list_item 1 tv_product]))))))].

Definition sample_file : InputFile :=
  mkInputFile true (inr "[{...}, {...}, 7]")
    (inr (JArr [JObj [("name", JStr "tv"); ("max_price", JStr "cheap")];
                JObj [("name", JStr "cable"); ("max_price", JStr "9.50")];
                JInt 7])).


(** The parsed page without the containers Amazon marks as sponsored. *)
Definition without_sponsored (soup : Soup) : Soup :=
  mkSoup
    (fun sel =>
       List.filter
         (fun li => Py.is_None (select_one li AmazonPlatform.SPONSORED_SELECTOR))
         (select soup sel))
    (select_scripts soup).

(** An Amazon listing that carries the sponsored label. *)
Definition sponsored_listing (title_text price_text : string) (h : option string) : ListItem :=
  mkListItem (fun sel =>
    if String.eqb sel AmazonPlatform.SPONSORED_SELECTOR then Some (tag "Sponsored")
    else select_one (amazon_listing title_text price_text h) sel).

Definition amazon_soup : Soup :=
  mkSoup (fun _ => [sponsored_listing "RTX 3080 ad" "$400.00" (Some "/dp/AD1");
                    amazon_listing "RTX 3080" "$450.00" (Some "/dp/B01")])
         (fun _ => []).

(** A Walmart script whose JSON holds [items] under
    [searchContent.preso.items]. *)
Definition walmart_script (items : list json) : Script :=
  mkScript "{searchContent: ...}"
    (inr (JObj [("searchContent", JObj [("preso", JObj [("items", JArr items)])])])).

Definition walmart_cable : json :=
  JObj [("title", JStr " USB cable "); ("primaryOffer", JObj [("offerPrice", JFloat "4.99")]);
        ("canonicalUrl", JStr "/ip/usb-cable/9")].

(** The ['item'] of a JSON-LD entry, as the loop of Best Buy reads it. *)
Definition entry_is_broken (item_entry : json) : Prop :=
  PyVal.is_dict item_entry = false
  \/ exists m x, item_entry = JObj m /\ PyVal.lookup "item" m = Some x
                 /\ PyVal.is_dict x = false.

(** The links the table holds (NULL links left out), and its ids. *)
Definition table_links (db : Db) : list string :=
  flat_map (fun row => match row_link row with Some l => [l] | None => [] end) db.

Definition table_ids (db : Db) : list Z := List.map row_id db.



(** A file whose second record has an integer [max_price] too large for
    a float. *)
Definition overflow_file : InputFile :=
  mkInputFile true (inr "[{...}, {...}]")
    (inr (JArr [JObj [("name", JStr "cable"); ("max_price", JStr "9.50")];
                JObj [("name", JStr "tv"); ("max_price", JInt (2 ^ 1024))]])).

(** The modules of the package [platform_modules], as [getattr] sees
    the class each one defines. *)
Definition package_modules : string -> M (string -> option (ModuleAttr Platform)) :=
  fun module_name =>
    let one (class_name : string) (p : Platform) : M (string -> option (ModuleAttr Platform)) :=
      inr (fun attr =>
             if String.eqb attr class_name then Some (Class true (inr p))
             else if String.eqb attr "BasePlatform" then Some (Class true (inl TypeError))
             else if String.eqb attr "log" then Some NotAClass
             else None) in
    if String.eqb module_name "platform_modules.ebay_module" then one "EbayPlatform" EBAY
    else if String.eqb module_name "platform_modules.amazon_module"
         then one "AmazonPlatform" AMAZON
    else if String.eqb module_name "platform_modules.walmart_module"
         then one "WalmartPlatform" WALMART
    else if String.eqb module_name "platform_modules.bestbuy_module"
         then one "BestbuyPlatform" BESTBUY
    else inl OSError.

(** A configuration with two sections. *)
Definition sample_config : Config :=
  fun section key =>
    if String.eqb section "General" then
      if String.eqb key "schedule_interval_minutes" then inr " -5 "
      else if String.eqb key "input_file" then inr "input.json"
      else inl NoOptionError
    else if String.eqb section "Platforms" then
      if String.eqb key "enabled_platforms"
      then inr (String (ascii_of_nat 10)
                  ("ebay" ++ String (ascii_of_nat 10)
                     ("  ; amazon" ++ String (ascii_of_nat 13) (String (ascii_of_nat 10)
                        ("  bestbuy  " ++ String (ascii_of_nat 10)
                           ("eBay" ++ String (ascii_of_nat 10) "ebay")))))%string)
      else inl NoOptionError
    else inl NoSectionError.

(** * Properties *)

(** ** Strings *)

Module PyFacts.



Lemma all_app f s t : Py.all f (s ++ t) = Py.all f s && Py.all f t.
Proof.
  induction s as [|c r IH]; simpl; [reflexivity|].
  rewrite IH, andb_assoc. reflexivity.
Qed.






End PyFacts.

(** ** Price characters *)


Lemma isdigit_ord c : Py.isdigit c = true -> (48 <= Py.ord c <= 57)%nat.
Proof.
  unfold Py.isdigit. intros E. apply andb_true_iff in E as [E1 E2].
  apply Nat.leb_le in E1, E2. lia.
Qed.



Import PyFacts PriceSpec.








Lemma isdigit_not_point x : Py.isdigit x = true -> FloatParse.is_point x = false.
Proof.
  intros D. apply isdigit_ord in D. unfold FloatParse.is_point.
  apply Ascii.eqb_neq. intros ->. cbv in D. lia.
Qed.

Lemma point_not_digit x : FloatParse.is_point x = true -> Py.isdigit x = false.
Proof.
  intros P. destruct (Py.isdigit x) eqn:D; [|reflexivity].
  rewrite (isdigit_not_point _ D) in P. discriminate.
Qed.


























(** ** The filters *)

Lemma float_eq_not_gt a b : float_eq a b = true -> float_gt a b = false.
Proof.
  unfold float_eq, float_gt. destruct (float_compare a b) as [[]|]; congruence.
Qed.

(** C2. The price rule rejects a result whose price is absent or above
    [max_price] and accepts it at equality; on eBay the conjunction with
    the rating rule rejects a result whose seller rating is absent or
    below a positive [min_seller_rating].  The predicates are functions
    of their two arguments, so they are deterministic. *)
Theorem passes_spec (result : Result) (it : ItemRequest) :
  (price result = None -> BasePlatform._apply_filters result it = false)
  /\ (forall p, price result = Some p -> float_gt p (max_price it) = true ->
        BasePlatform._apply_filters result it = false)
  /\ (forall p, price result = Some p -> float_eq p (max_price it) = true ->
        BasePlatform._apply_filters result it = true)
  /\ (float_gt (min_seller_rating it) float_zero = true ->
      (seller_rating result = None
       \/ exists s, seller_rating result = Some s
                    /\ float_lt s (min_seller_rating it) = true) ->
      BasePlatform._apply_filters result it
      && EbayPlatform._apply_ebay_filters result it = false).
Proof.
  unfold BasePlatform._apply_filters, EbayPlatform._apply_ebay_filters.
  repeat split.
  - intros ->. reflexivity.
  - intros p -> G. rewrite G. reflexivity.
  - intros p -> E. rewrite (float_eq_not_gt _ _ E). reflexivity.
  - intros G H. rewrite G. apply andb_false_iff. right.
    destruct H as [->|(s & -> & L)]; [reflexivity|]. rewrite L. reflexivity.
Qed.

(** The scenario of the spec: max price 500 and minimum rating 95. *)
Lemma passes_spec_witness :
  BasePlatform._apply_filters (sample_result None None) sample_item = false
  /\ BasePlatform._apply_filters (sample_result (Some (Finite 550)) None) sample_item = false
  /\ BasePlatform._apply_filters (sample_result (Some (Finite 500)) None) sample_item = true
  /\ BasePlatform._apply_filters (sample_result (Some (Finite 480)) (Some (Finite 90))) sample_item
     && EbayPlatform._apply_ebay_filters
          (sample_result (Some (Finite 480)) (Some (Finite 90))) sample_item = false.
Proof.
  split; [|split; [|split]].
  - apply (proj1 (passes_spec (sample_result None None) sample_item)). reflexivity.
  - apply (proj1 (proj2 (passes_spec (sample_result (Some (Finite 550)) None) sample_item))
             (Finite 550)); reflexivity.
  - apply (proj1 (proj2 (proj2 (passes_spec (sample_result (Some (Finite 500)) None)
                                            sample_item))) (Finite 500)); reflexivity.
  - apply (proj2 (proj2 (proj2 (passes_spec
                                  (sample_result (Some (Finite 480)) (Some (Finite 90)))
                                  sample_item)))); [reflexivity|].
    right. exists (Finite 90). split; reflexivity.
Defined.

(** ** The lower bound of an eBay price range *)

Lemma prefix_app s t : String.prefix s (s ++ t) = true.
Proof.
  induction s as [|c r IH]; simpl; [destruct t; reflexivity|].
  destruct (ascii_dec c c); [exact IH | congruence].
Qed.

Lemma before_first_sep sep t : Py.before_first sep (sep ++ t) = EmptyString.
Proof.
  destruct (sep ++ t) as [|c r] eqn:E; [reflexivity|]. cbn [Py.before_first].
  rewrite <- E, prefix_app. reflexivity.
Qed.

(** [s.split (sep)[0]] is the text before the first occurrence. *)
Lemma before_first_app sep a b :
  occurs_before sep (a ++ sep ++ b) (String.length a) = false ->
  Py.before_first sep (a ++ sep ++ b) = a.
Proof.
  induction a as [|c r IH]; intros H.
  - exact (before_first_sep sep b).
  - cbn [String.length occurs_before append] in H. apply orb_false_iff in H as [H1 H2].
    cbn [append Py.before_first]. rewrite H1, (IH H2). reflexivity.
Qed.

Lemma ebay_emitted_fields it li r :
  EbayPlatform.process_listing it li = inr (Some r) ->
  title r = JStr (EbayPlatform.listing_title li)
  /\ price r = EbayPlatform.listing_price li
  /\ link r = EbayPlatform.listing_link li
  /\ EbayPlatform.listing_title li <> "N/A"
  /\ BasePlatform._apply_filters r it = true.
Proof.
  unfold EbayPlatform.process_listing.
  destruct (EbayPlatform.listing_seller_rating li) as [e|sr]; [discriminate|].
  cbn [bind].
  destruct (String.eqb_spec (EbayPlatform.listing_title li) "N/A") as [|N];
    cbn [orb]; [discriminate|].
  destruct (Py.is_None (EbayPlatform.listing_price li) || Py.is_None (EbayPlatform.listing_link li));
    [discriminate|].
  match goal with |- context [BasePlatform._apply_filters ?x it] => set (res := x) end.
  destruct (BasePlatform._apply_filters res it) eqn:F; cbn [andb]; [|discriminate].
  destruct (EbayPlatform._apply_ebay_filters res it); [|discriminate].
  intros E. injection E as <-. repeat split; try reflexivity; assumption.
Qed.

(** C10. When the price text of an eBay listing is a range [a to b],
    [a] being the text before the first [" to "], the price of the
    result emitted for it is the cleaned lower bound [a]. *)
Theorem ebay_range_lower_bound it li a b r :
  EbayPlatform.listing_price_str li = a ++ " to " ++ b ->
  occurs_before " to " (a ++ " to " ++ b) (String.length a) = false ->
  EbayPlatform.process_listing it li = inr (Some r) ->
  price r = _clean_price (JStr a) /\ exists p, price r = Some p.
Proof.
  intros S O E. pose proof (ebay_emitted_fields _ _ _ E) as (_ & P & _ & _ & F).
  split.
  - rewrite P. unfold EbayPlatform.listing_price. rewrite S, (before_first_app _ _ _ O).
    reflexivity.
  - unfold BasePlatform._apply_filters in F.
    destruct (price r) as [p|]; [exists p; reflexivity | discriminate].
Qed.

Lemma ebay_range_lower_bound_witness :
  price range_result = _clean_price (JStr "$5.00")
  /\ exists p, price range_result = Some p.
Proof.
  apply (ebay_range_lower_bound (mkItem "usb cable" (Finite 10) (Finite 95))
           range_listing "$5.00" "$7.50" range_result); reflexivity.
Defined.



(** ** Links *)





(** ** Block pages *)

Lemma make_request_ok name response :
  BasePlatform.raise_for_status response = inr tt ->
  BasePlatform._make_request name (inr response) = ([], Some response).
Proof.
  intros H. unfold BasePlatform._make_request. cbn [bind]. rewrite H. reflexivity.
Qed.

(** C6. When the response an adapter fetched matches its block
    signature, [search] logs one error and returns the empty list,
    whatever the page holds; the error is the block, unless the status
    of the response already made the request fail. *)
Theorem block_page_yields_nothing p it response :
  block_signature p response = true ->
  exists event,
    search p it (inr response) = ([mkLog (platform_name p) event], inr [])
    /\ (BasePlatform.raise_for_status response = inr tt -> event = Blocked).
Proof.
  intros B. destruct (BasePlatform.raise_for_status response) as [e|[]] eqn:S.
  - exists RequestFailed. split; [|discriminate].
    destruct p; cbn [search block_signature platform_name] in *; [discriminate| | |].
    + unfold AmazonPlatform.search, BasePlatform._make_request. cbn [bind].
      rewrite S. reflexivity.
    + unfold WalmartPlatform.search, BasePlatform._make_request. cbn [bind].
      rewrite S. reflexivity.
    + unfold BestbuyPlatform.search, BasePlatform._make_request. cbn [bind].
      rewrite S. reflexivity.
  - exists Blocked. split; [|reflexivity].
    destruct p; cbn [search block_signature platform_name] in *; [discriminate| | |].
    + unfold AmazonPlatform.search. rewrite (make_request_ok _ _ S), B. reflexivity.
    + unfold WalmartPlatform.search. rewrite (make_request_ok _ _ S), B. reflexivity.
    + unfold BestbuyPlatform.search. rewrite (make_request_ok _ _ S), B. reflexivity.
Qed.

Lemma block_page_yields_nothing_witness :
  (exists event,
     search AMAZON sample_item (inr captcha_page) = ([mkLog "Amazon" event], inr [])
     /\ (BasePlatform.raise_for_status captcha_page = inr tt -> event = Blocked))
  /\ (exists event,
        search WALMART sample_item (inr walmart_redirect_page)
        = ([mkLog "Walmart" event], inr [])
        /\ (BasePlatform.raise_for_status walmart_redirect_page = inr tt -> event = Blocked))
  /\ (exists event,
        search BESTBUY sample_item (inr access_denied_page)
        = ([mkLog "BestBuy" event], inr [])
        /\ (BasePlatform.raise_for_status access_denied_page = inr tt -> event = Blocked)).
Proof.
  split; [|split].
  - apply (block_page_yields_nothing AMAZON sample_item captcha_page). reflexivity.
  - apply (block_page_yields_nothing WALMART sample_item walmart_redirect_page). reflexivity.
  - apply (block_page_yields_nothing BESTBUY sample_item access_denied_page). reflexivity.
Defined.



(** ** What a result emitted by [search] holds *)



Lemma in_listing_results body r :
  In r (listing_results body) -> body = inr (Some r).
Proof.
  destruct body as [e|[x|]]; simpl; intros H; try contradiction.
  destruct H as [->|[]]. reflexivity.
Qed.









(** Inversion of one [bind] whose result is known to be a value. *)
Ltac bind_inv :=
  match goal with
  | |- context [bind ?m _] =>
      let x := fresh "x" in
      let E := fresh "E" in
      destruct m as [?|x] eqn:E; cbn [bind]; [discriminate|]
  end.



Lemma in_flat_map_results {A} (f : A -> M (option Result)) l r :
  In r (flat_map (fun x => listing_results (f x)) l) ->
  exists x, In x l /\ f x = inr (Some r).
Proof.
  intros H. apply in_flat_map in H as (x & I & H).
  exists x. split; [exact I | apply in_listing_results, H].
Qed.











Example scenario_a :
  search EBAY sample_item (inr scenario_a_page)
  = ([], inr [mkResult "eBay" "RTX 3080" (JStr "RTX 3080 FE") (Some (Finite (45000 # 100)))
                       (Some (Finite 97)) (Some "https://www.ebay.com/itm/1")]).
Proof. reflexivity. Qed.

(** ** [search] and exceptions *)

(** [search] returns a list: nothing it does outside its handlers raises. *)
Lemma search_never_raises p it session_get :
  exists rs, snd (search p it session_get) = inr rs.
Proof.
  destruct p; cbn [search].
  - unfold EbayPlatform.search.
    destruct (BasePlatform._make_request _ session_get) as [l1 [resp|]];
      [|eexists; reflexivity].
    destruct (BasePlatform._parse_html _ resp) as [l2 [soup|]]; eexists; reflexivity.
  - unfold AmazonPlatform.search.
    destruct (BasePlatform._make_request _ session_get) as [l1 [resp|]];
      [|eexists; reflexivity].
    destruct (AmazonPlatform.is_blocked resp); [eexists; reflexivity|].
    destruct (BasePlatform._parse_html _ resp) as [l2 [soup|]]; eexists; reflexivity.
  - unfold WalmartPlatform.search.
    destruct (BasePlatform._make_request _ session_get) as [l1 [resp|]];
      [|eexists; reflexivity].
    destruct (WalmartPlatform.is_blocked resp); [eexists; reflexivity|].
    destruct (BasePlatform._parse_html _ resp) as [l2 [soup|]]; [|eexists; reflexivity].
    destruct (WalmartPlatform.scan_scripts it _) as [[l3 rs0] fj]. eexists; reflexivity.
  - unfold BestbuyPlatform.search.
    destruct (BasePlatform._make_request _ session_get) as [l1 [resp|]];
      [|eexists; reflexivity].
    destruct (BestbuyPlatform.is_blocked resp); [eexists; reflexivity|].
    destruct (BasePlatform._parse_html _ resp) as [l2 [soup|]]; [|eexists; reflexivity].
    destruct (BestbuyPlatform.scan_scripts it _ _) as [[l3 rs0] fj]. eexists; reflexivity.
Qed.

(** A page on which no selector matches anything yields no result. *)
Lemma empty_page_no_result p it u body :
  BasePlatform.raise_for_status
    (mkResponse u 200 body (inr (mkSoup (fun _ => []) (fun _ => [])))) = inr tt ->
  exists lg,
    search p it (inr (mkResponse u 200 body (inr (mkSoup (fun _ => []) (fun _ => [])))))
    = (lg, inr []).
Proof.
  intros S. destruct p; cbn [search].
  - unfold EbayPlatform.search. rewrite (make_request_ok _ _ S).
    destruct (BasePlatform._parse_html _ _) as [l2 [soup|]] eqn:E; [|eexists; reflexivity].
    unfold BasePlatform._parse_html in E. cbn in E.
    destruct (Py.is_empty body); [discriminate|]. injection E as <- <-.
    eexists; reflexivity.
  - unfold AmazonPlatform.search. rewrite (make_request_ok _ _ S).
    destruct (AmazonPlatform.is_blocked _); [eexists; reflexivity|].
    destruct (BasePlatform._parse_html _ _) as [l2 [soup|]] eqn:E; [|eexists; reflexivity].
    unfold BasePlatform._parse_html in E. cbn in E.
    destruct (Py.is_empty body); [discriminate|]. injection E as <- <-.
    eexists; reflexivity.
  - unfold WalmartPlatform.search. rewrite (make_request_ok _ _ S).
    destruct (WalmartPlatform.is_blocked _); [eexists; reflexivity|].
    destruct (BasePlatform._parse_html _ _) as [l2 [soup|]] eqn:E; [|eexists; reflexivity].
    unfold BasePlatform._parse_html in E. cbn in E.
    destruct (Py.is_empty body); [discriminate|]. injection E as <- <-.
    eexists; reflexivity.
  - unfold BestbuyPlatform.search. rewrite (make_request_ok _ _ S).
    destruct (BestbuyPlatform.is_blocked _); [eexists; reflexivity|].
    destruct (BasePlatform._parse_html _ _) as [l2 [soup|]] eqn:E; [|eexists; reflexivity].
    unfold BasePlatform._parse_html in E. cbn in E.
    destruct (Py.is_empty body); [discriminate|]. injection E as <- <-.
    eexists; reflexivity.
Qed.

(** On the HTML strategies and in Walmart's embedded JSON, a listing
    whose processing raises adds nothing and the others are processed
    as they would be without it. *)
Lemma failing_listing_skipped {A} (f : A -> M (option Result)) before bad after e :
  f bad = inl e ->
  flat_map (fun x => listing_results (f x)) (before ++ bad :: after)
  = flat_map (fun x => listing_results (f x)) (before ++ after).
Proof.
  intros H. rewrite !flat_map_app. cbn [flat_map]. rewrite H. reflexivity.
Qed.

(** C5, where the code departs from it.  In Best Buy's JSON-LD loop the
    two [.get] calls that open the loop body stand before the inner
    [try]: an entry whose ['item'] is a URL string raises
    [AttributeError] there, the handler of the whole script catches it,
    and the product that follows is never processed.  Without the bad
    entry the same product is emitted. *)
Theorem bestbuy_bad_entry_aborts_block :
  search BESTBUY (mkItem "tv" (Finite 500) (Finite 0))
    (inr (bestbuy_page
            (item_list [list_item 1 (JStr "https://www.bestbuy.com/site/a");
                        list_item 2 tv_product])))
  = ([mkLog "BestBuy" (ScriptTagError AttributeError)], inr [])
  /\ search BESTBUY (mkItem "tv" (Finite 500) (Finite 0))
       (inr (bestbuy_page (item_list [list_item 2 tv_product])))
     = ([], inr [tv_result]).
Proof. split; reflexivity. Qed.



(** ** Saving results *)

Local Open Scope list_scope.

Lemma link_conflict_app db extra l :
  link_conflict db l = true -> link_conflict (db ++ extra) l = true.
Proof.
  destruct l as [l|]; cbn [link_conflict]; [|discriminate].
  rewrite existsb_app. intros ->. reflexivity.
Qed.

Lemma link_conflict_new db row l :
  row_link row = Some l -> link_conflict (db ++ [row]) (Some l) = true.
Proof.
  intros H. cbn [link_conflict]. rewrite existsb_app. cbn [existsb].
  unfold same_link at 2. rewrite H, String.eqb_refl, orb_true_r. reflexivity.
Qed.

Lemma storable_inv r :
  storable r = true ->
  (exists t, bind_title (title r) = inr t)
  /\ exists l, link r = Some l /\ Py.is_falsy (link r) = false.
Proof.
  unfold storable. intros H. apply andb_true_iff in H as [B L].
  apply negb_true_iff in L. split.
  - destruct (bind_title (title r)) as [e|t]; [discriminate | exists t; reflexivity].
  - destruct (link r) as [l|]; [exists l; auto | discriminate].
Qed.

(** The loop over storable results ends without an exception; the table
    only grows, and afterwards holds the link of every result. *)
Lemma save_loop_storable now results :
  Forall (fun r => storable r = true) results ->
  forall db counts,
  exists extra counts',
    save_loop now db counts results = inr (db ++ extra, counts')
    /\ forall r, In r results -> link_conflict (db ++ extra) (link r) = true.
Proof.
  induction 1 as [|r rest St _ IH]; intros db [i g].
  - exists [], (i, g). rewrite app_nil_r. split; [reflexivity | intros r []].
  - destruct (storable_inv _ St) as ((t & B) & l & L & F).
    cbn [save_loop]. unfold execute_insert. rewrite B. cbn [bind].
    destruct (link_conflict db (link r)) eqn:C; cbn [ret].
    + change (0 <? 0)%nat with false. cbv iota. rewrite F. cbn [negb].
      destruct (IH db (i, S g)) as (extra & c' & E & K).
      exists extra, c'. split; [exact E|].
      intros r' [<-|I]; [apply link_conflict_app, C | apply K, I].
    + change (0 <? 1)%nat with true. cbv iota.
      match goal with |- context [save_loop now (db ++ [?row]) _ rest] =>
        set (new := row) end.
      destruct (IH (db ++ [new]) (S i, g)) as (extra & c' & E & K).
      exists ([new] ++ extra), c'. rewrite app_assoc. split; [exact E|].
      intros r' [<-|I]; [|apply K, I].
      apply link_conflict_app. rewrite L. apply link_conflict_new. exact L.
Qed.

(** When the table already holds every link, nothing is inserted and
    every result is counted as ignored. *)
Lemma save_loop_all_present now results :
  Forall (fun r => storable r = true) results ->
  forall db i g,
  (forall r, In r results -> link_conflict db (link r) = true) ->
  save_loop now db (i, g) results = inr (db, (i, g + List.length results)%nat).
Proof.
  induction 1 as [|r rest St _ IH]; intros db i g K.
  - cbn. rewrite Nat.add_0_r. reflexivity.
  - destruct (storable_inv _ St) as ((t & B) & l & L & F).
    cbn [save_loop]. unfold execute_insert. rewrite B. cbn [bind].
    rewrite (K r (or_introl eq_refl)). cbn [ret].
    change (0 <? 0)%nat with false. cbv iota. rewrite F. cbn [negb].
    rewrite IH by (intros r' I; apply K; right; exact I).
    cbn [List.length]. rewrite Nat.add_succ_r. reflexivity.
Qed.

(** C7 (as amended). For results whose titles can be stored and whose
    links are non-empty (and pairwise distinct), saving the sequence a
    second time inserts nothing, counts every result as ignored and
    leaves the table as the first save left it; saving the empty
    sequence changes nothing. *)
Theorem save_results_idempotent (now1 now2 : Z) (db : Db) (results : list Result) :
  NoDup (List.map link results) ->
  Forall (fun r => storable r = true) results ->
  results <> [] ->
  let db1 := fst (save_results now1 db results) in
  save_results now2 db1 results = (db1, inr (Some (0%nat, List.length results)))
  /\ save_results now2 db1 [] = (db1, inr None).
Proof.
  intros _ St N db1. split; [|reflexivity].
  destruct (save_loop_storable now1 _ St db (0%nat, 0%nat)) as (extra & c' & E & K).
  assert (D : db1 = db ++ extra).
  { unfold db1, save_results. destruct results; [contradiction|]. rewrite E. reflexivity. }
  rewrite D. unfold save_results. destruct results as [|r rest]; [contradiction|].
  rewrite (save_loop_all_present now2 _ St (db ++ extra) 0 0 K). reflexivity.
Qed.

Lemma save_results_idempotent_witness :
  let db1 := fst (save_results 100 [] [stored_tv; stored_cable]) in
  save_results 200 db1 [stored_tv; stored_cable] = (db1, inr (Some (0%nat, 2%nat)))
  /\ save_results 200 db1 [] = (db1, inr None).
Proof.
  apply (save_results_idempotent 100 200 [] [stored_tv; stored_cable]).
  - repeat constructor; cbn; intuition discriminate.
  - repeat constructor.
  - discriminate.
Defined.

(** C7 as stated fails: eBay emits a listing whose [href] is the empty
    string with the empty link; the first save inserts it, the second
    ignores it, and the ignored row is not counted because its link is
    falsy. *)
Lemma empty_link_resave_not_counted :
  let r := mkResult "eBay" "usb cable" (JStr "USB cable") (Some (Finite (500 # 100))) None
                    (Some "") in
  snd (search EBAY (mkItem "usb cable" (Finite 10) (Finite 0))
         (inr (page_of EbayPlatform.RESULT_ITEM_SELECTOR
                 [ebay_listing "USB cable" "$5.00" (Some "") None]))) = inr [r]
  /\ NoDup (List.map link [r])
  /\ snd (save_results 100 [] [r]) = inr (Some (1%nat, 0%nat))
  /\ snd (save_results 200 (fst (save_results 100 [] [r])) [r]) = inr (Some (0%nat, 0%nat)).
Proof.
  cbv zeta. split; [reflexivity|]. split; [|split; reflexivity].
  repeat constructor. intros [].
Qed.



(** ** The search cycle *)


Lemma in_search_platforms (platform_instances : list PlatformInstance)
  (items : list ItemDict) (it : ItemDict) (p : PlatformInstance) rs r :
  In it items -> In p platform_instances -> snd p it = inr rs -> In r rs ->
  In r (search_platforms platform_instances items).
Proof.
  intros Ii Ip E Ir. unfold search_platforms.
  apply in_flat_map. exists it. split; [exact Ii|].
  apply in_flat_map. exists p. split; [exact Ip|].
  unfold platform_results. cbv beta. rewrite E. exact Ir.
Qed.

(** C8. In a cycle that has platforms and items, whatever a platform's
    [search] returns for an item reaches the aggregate, also when the
    [search] of another platform (or of the same platform for another
    item) raises; the aggregate is what [save_results] is given. *)
Theorem cycle_survives_adapter_failure
  (platform_instances : list PlatformInstance) (input_file : InputFile)
  (now : Z) (db : database_manager.Db) (failing : PlatformInstance)
  (failed_on : ItemDict) (e : exn) :
  In failing platform_instances ->
  In failed_on (input_processor.read_input_file input_file) ->
  snd failing failed_on = inl e ->
  let items := input_processor.read_input_file input_file in
  let cycle := run_search_cycle platform_instances input_file now db in
  handed_to_save cycle = Some (search_platforms platform_instances items)
  /\ db_after cycle
     = fst (database_manager.save_results now db (search_platforms platform_instances items))
  /\ forall (it : ItemDict) (p : PlatformInstance) rs r,
       In it items -> In p platform_instances -> snd p it = inr rs -> In r rs ->
       In r (search_platforms platform_instances items).
Proof.
  intros Ip Ii _ items cycle. split; [|split].
  - unfold cycle, run_search_cycle. subst items.
    destruct platform_instances as [|p0 ps]; [destruct Ip|].
    destruct (read_input_file input_file) as [|i0 rest]; [destruct Ii|].
    destruct (database_manager.save_results _ _ _). reflexivity.
  - unfold cycle, run_search_cycle. subst items.
    destruct platform_instances as [|p0 ps]; [destruct Ip|].
    destruct (read_input_file input_file) as [|i0 rest]; [destruct Ii|].
    destruct (database_manager.save_results _ _ _). reflexivity.
  - intros it p rs r. apply in_search_platforms.
Qed.

Lemma cycle_survives_adapter_failure_witness :
  handed_to_save (run_search_cycle scenario_platforms one_item_file 100 [])
  = Some [stored_cable; tv_result]
  /\ List.map row_link (db_after (run_search_cycle scenario_platforms one_item_file 100 []))
     = [Some "https://www.walmart.com/ip/9"; Some "https://www.bestbuy.com/site/oled-tv"].
Proof.
  pose proof (cycle_survives_adapter_failure scenario_platforms one_item_file 100 []
                ("ebay", fun _ => inl AttributeError) tv_item AttributeError
                (or_introl eq_refl) (or_introl eq_refl) eq_refl) as (H1 & H2 & _).
  split.
  - rewrite H1. reflexivity.
  - rewrite H2. reflexivity.
Defined.

(** ** Reading the input file *)

Lemma validate_items_flat items :
  Forall (fun v => validate_item v <> inl OverflowError) items ->
  (forall v e, validate_item v = inl e -> e = OverflowError) ->
  validate_items items
  = inr (flat_map (fun v => match validate_item v with
                            | inr (Some d) => [d]
                            | _ => []
                            end) items).
Proof.
  intros F O. induction F as [|v rest Hv _ IH]; [reflexivity|].
  cbn [validate_items flat_map]. destruct (validate_item v) as [e|o] eqn:E.
  - exfalso. apply Hv. rewrite (O _ _ E). reflexivity.
  - cbn [bind]. rewrite IH. cbn [bind ret]. destruct o; reflexivity.
Qed.

Lemma py_float_raises v e :
  py_float v = inl e -> e = TypeError \/ e = ValueError \/ e = OverflowError.
Proof.
  destruct v; unfold py_float, ret, raise.
  - intros H; injection H as <-; auto.
  - discriminate.
  - destruct (Z.abs z <? float_overflow_bound)%Z; [discriminate|].
    intros H; injection H as <-; auto.
  - discriminate.
  - destruct (FloatParse.float_of_string s); [discriminate|].
    intros H; injection H as <-; auto.
  - intros H; injection H as <-; auto.
  - intros H; injection H as <-; auto.
Qed.

Lemma try_except_coercion {A} (m : M A) (h : A) e :
  try_except m is_coercion_error h = inl e -> m = inl e /\ is_coercion_error e = false.
Proof.
  unfold try_except. destruct m as [e'|a]; [|discriminate].
  destruct (is_coercion_error e') eqn:C; [discriminate|].
  intros H; injection H as <-. auto.
Qed.

(** An item is only left by an [OverflowError]. *)
Lemma validate_item_raises v e : validate_item v = inl e -> e = OverflowError.
Proof.
  destruct v; try discriminate. cbn [validate_item].
  destruct (PyVal.lookup "name" members) as [n|]; [|discriminate].
  destruct (PyVal.lookup "max_price" members) as [raw|]; [|discriminate].
  destruct (try_except (f <- py_float raw;; ret (Some f)) is_coercion_error None)
    as [e1|[mp|]] eqn:E1; cbn [bind].
  - intros H; injection H as <-. apply try_except_coercion in E1 as [E1 C].
    destruct (py_float raw) as [e2|] eqn:P; [|discriminate]. cbn in E1.
    injection E1 as <-. destruct (py_float_raises _ _ P) as [->|[->| ->]];
      try discriminate; reflexivity.
  - match goal with |- context [try_except ?m _ _] =>
      destruct (try_except m is_coercion_error (Finite 0)) as [e2|] eqn:E2 end;
      cbn [bind]; [|discriminate].
    intros H; injection H as <-. apply try_except_coercion in E2 as [E2 C].
    destruct (py_float_raises _ _ E2) as [->|[->| ->]]; try discriminate; reflexivity.
  - discriminate.
Qed.

Lemma validate_item_fields m d :
  validate_item (JObj m) = inr (Some d) ->
  exists n raw,
    PyVal.lookup "name" m = Some n /\ d_name d = n
    /\ PyVal.lookup "max_price" m = Some raw /\ py_float raw = inr (d_max_price d)
    /\ match PyVal.lookup "min_seller_rating" m with
       | None => d_min_seller_rating d = Finite 0
       | Some x =>
           py_float x = inr (d_min_seller_rating d)
           \/ (exists e, py_float x = inl e /\ is_coercion_error e = true
                         /\ d_min_seller_rating d = Finite 0)
       end.
Proof.
  cbn [validate_item].
  destruct (PyVal.lookup "name" m) as [n|]; [|discriminate].
  destruct (PyVal.lookup "max_price" m) as [raw|]; [|discriminate].
  destruct (py_float raw) as [e1|mp] eqn:P1; cbn [bind try_except ret].
  - destruct (is_coercion_error e1); discriminate.
  - destruct (PyVal.lookup "min_seller_rating" m) as [x|].
    + destruct (py_float x) as [e2|mr] eqn:P2; cbn [try_except].
      * destruct (is_coercion_error e2) eqn:C; cbn [bind]; [|discriminate].
        intros H. injection H as <-. exists n, raw. cbn.
        repeat split; try reflexivity; try exact P1. right. exists e2. auto.
      * cbn [bind]. intros H. injection H as <-. exists n, raw. cbn.
        repeat split; try reflexivity; try exact P1. left. reflexivity.
    + change (py_float (JInt 0)) with (@inr exn pyfloat (Finite 0)).
      cbn [try_except bind]. intros H. injection H as <-. exists n, raw. cbn.
      repeat split; try reflexivity; exact P1.
Qed.

(** C9 (as amended). [read_input_file] returns the empty list when the
    path does not exist, when reading raises, when the content is blank,
    when decoding raises and when the decoded value is not a list.
    Every record returned comes from a dict of the file that has a name
    and a [max_price] that [float] accepts, now a float; its
    [min_seller_rating] is the float of the one given, or 0.0 when there
    is none or when [float] rejects it with [ValueError] or [TypeError].
    A dict whose [max_price] is rejected in that way is dropped, and
    the other entries are still read (as long as no [float] overflows). *)
Theorem read_input_file_contract (f : InputFile) :
  (path_exists f = false -> read_input_file f = [])
  /\ (forall e, read f = inl e -> read_input_file f = [])
  /\ (forall content, read f = inr content -> Py.is_empty (Py.strip content) = true ->
        read_input_file f = [])
  /\ (forall e, json_loads f = inl e -> read_input_file f = [])
  /\ (forall v, json_loads f = inr v -> PyVal.is_list v = false -> read_input_file f = [])
  /\ (forall content items,
        path_exists f = true -> read f = inr content ->
        Py.is_empty (Py.strip content) = false ->
        json_loads f = inr (JArr items) ->
        Forall (fun v => validate_item v <> inl OverflowError) items ->
        read_input_file f
        = flat_map (fun v => match validate_item v with
                             | inr (Some d) => [d]
                             | _ => []
                             end) items)
  /\ (forall v d, validate_item v = inr (Some d) ->
        exists m n raw,
          v = JObj m
          /\ PyVal.lookup "name" m = Some n /\ d_name d = n
          /\ PyVal.lookup "max_price" m = Some raw /\ py_float raw = inr (d_max_price d)
          /\ match PyVal.lookup "min_seller_rating" m with
             | None => d_min_seller_rating d = Finite 0
             | Some x =>
                 py_float x = inr (d_min_seller_rating d)
                 \/ (exists e, py_float x = inl e /\ is_coercion_error e = true
                               /\ d_min_seller_rating d = Finite 0)
             end)
  /\ (forall m n raw e,
        PyVal.lookup "name" m = Some n -> PyVal.lookup "max_price" m = Some raw ->
        py_float raw = inl e -> is_coercion_error e = true ->
        validate_item (JObj m) = inr None).
Proof.
  unfold read_input_file.
  split; [|split; [|split; [|split; [|split; [|split; [|split]]]]]].
  - intros ->. reflexivity.
  - intros e ->. destruct (negb (path_exists f)); reflexivity.
  - intros content R E. rewrite R. destruct (negb (path_exists f)); [reflexivity|].
    cbn [bind]. rewrite E. reflexivity.
  - intros e ->. destruct (negb (path_exists f)); [reflexivity|].
    destruct (read f) as [|content]; [reflexivity|]. cbn [bind].
    destruct (Py.is_empty (Py.strip content)); reflexivity.
  - intros v -> L. destruct (negb (path_exists f)); [reflexivity|].
    destruct (read f) as [|content]; [reflexivity|]. cbn [bind].
    destruct (Py.is_empty (Py.strip content)); [reflexivity|].
    destruct v; try reflexivity. discriminate.
  - intros content items X R E J F. rewrite X, R. cbn [negb bind]. rewrite E, J.
    cbn [bind]. rewrite (validate_items_flat _ F validate_item_raises). reflexivity.
  - intros v d H. destruct v; try discriminate.
    destruct (validate_item_fields _ _ H) as (n & raw & K).
    exists members, n, raw. split; [reflexivity | exact K].
  - intros m n raw e N R P C. cbn [validate_item]. rewrite N, R, P.
    cbn [bind try_except]. rewrite C. reflexivity.
Qed.

Lemma read_input_file_contract_witness :
  read_input_file (mkInputFile false (inr "[]") (inr (JArr []))) = []
  /\ read_input_file (mkInputFile true (inl OSError) (inr (JArr []))) = []
  /\ read_input_file (mkInputFile true (inr "  ") (inl JSONDecodeError)) = []
  /\ read_input_file (mkInputFile true (inr "[1,") (inl JSONDecodeError)) = []
  /\ read_input_file (mkInputFile true (inr "{}") (inr (JObj []))) = []
  /\ read_input_file sample_file
     = [mkItemDict (JStr "cable") (Finite (950 # 100)) (Finite 0) []]
  /\ validate_item (JObj [("name", JStr "tv"); ("max_price", JStr "cheap")]) = inr None.
Proof.
  split; [apply (proj1 (read_input_file_contract _)); reflexivity|].
  split; [apply (proj1 (proj2 (read_input_file_contract _)) OSError); reflexivity|].
  split; [apply (proj1 (proj2 (proj2 (read_input_file_contract _))) "  "); reflexivity|].
  split; [apply (proj1 (proj2 (proj2 (proj2 (read_input_file_contract _)))) JSONDecodeError);
          reflexivity|].
  split; [apply (proj1 (proj2 (proj2 (proj2 (proj2 (read_input_file_contract _)))))
                   (JObj [])); reflexivity|].
  split.
  - rewrite (proj1 (proj2 (proj2 (proj2 (proj2 (proj2
               (read_input_file_contract sample_file))))))
               "[{...}, {...}, 7]" _ eq_refl eq_refl eq_refl eq_refl).
    + reflexivity.
    + repeat constructor; discriminate.
  - apply (proj2 (proj2 (proj2 (proj2 (proj2 (proj2 (proj2
             (read_input_file_contract sample_file)))))))
             _ (JStr "tv") (JStr "cheap") ValueError); reflexivity.
Defined.

(** C9 as stated fails: a record whose [min_seller_rating] cannot be
    coerced is not dropped; it is returned with the rating 0.0. *)
Lemma bad_rating_record_kept :
  py_float (JStr "high") = inl ValueError
  /\ read_input_file
       (mkInputFile true (inr "[{...}]")
          (inr (JArr [JObj [("name", JStr "tv"); ("max_price", JInt 500);
                            ("min_seller_rating", JStr "high")]])))
     = [mkItemDict (JStr "tv") (Finite 500) (Finite 0) []].
Proof. split; reflexivity. Qed.


(** * Further properties of the adapters *)

(** ** What the loop bodies emit *)

Lemma ebay_body_inv it li r :
  EbayPlatform.process_listing it li = inr (Some r) ->
  exists sr,
    EbayPlatform.listing_seller_rating li = inr sr
    /\ r = mkResult EbayPlatform.platform_name (name it)
             (JStr (EbayPlatform.listing_title li)) (EbayPlatform.listing_price li) sr
             (EbayPlatform.listing_link li)
    /\ BasePlatform._apply_filters r it = true
    /\ EbayPlatform._apply_ebay_filters r it = true.
Proof.
  unfold EbayPlatform.process_listing.
  destruct (EbayPlatform.listing_seller_rating li) as [e|sr]; [discriminate|].
  cbn [bind].
  destruct (_ || _ || _); [discriminate|].
  match goal with |- context [BasePlatform._apply_filters ?x it] => set (res := x) end.
  destruct (BasePlatform._apply_filters res it) eqn:F; cbn [andb]; [|discriminate].
  destruct (EbayPlatform._apply_ebay_filters res it) eqn:G; [|discriminate].
  intros E. injection E as <-. exists sr. auto.
Qed.

Lemma amazon_body_inv it li r :
  AmazonPlatform.process_listing it li = inr (Some r) ->
  select_one li AmazonPlatform.SPONSORED_SELECTOR = None
  /\ r = mkResult AmazonPlatform.platform_name (name it)
           (JStr (AmazonPlatform.listing_title li)) (AmazonPlatform.listing_price li) None
           (AmazonPlatform.listing_link li)
  /\ BasePlatform._apply_filters r it = true.
Proof.
  unfold AmazonPlatform.process_listing.
  destruct (select_one li AmazonPlatform.SPONSORED_SELECTOR); [discriminate|].
  destruct (_ || _ || _); [discriminate|].
  match goal with |- context [BasePlatform._apply_filters ?x it] => set (res := x) end.
  destruct (BasePlatform._apply_filters res it) eqn:F; [|discriminate].
  intros E. injection E as <-. auto.
Qed.

Lemma walmart_body_inv it li r :
  WalmartPlatform.process_listing it li = inr (Some r) ->
  r = mkResult WalmartPlatform.platform_name (name it)
        (JStr (WalmartPlatform.listing_title li)) (WalmartPlatform.listing_price li) None
        (WalmartPlatform.listing_link li)
  /\ BasePlatform._apply_filters r it = true.
Proof.
  unfold WalmartPlatform.process_listing.
  destruct (_ || _ || _); [discriminate|].
  match goal with |- context [BasePlatform._apply_filters ?x it] => set (res := x) end.
  destruct (BasePlatform._apply_filters res it) eqn:F; [|discriminate].
  intros E. injection E as <-. auto.
Qed.

Lemma bestbuy_body_inv it li r :
  BestbuyPlatform.process_listing it li = inr (Some r) ->
  r = mkResult BestbuyPlatform.platform_name (name it)
        (JStr (BestbuyPlatform.listing_title li)) (BestbuyPlatform.listing_price li) None
        (BestbuyPlatform.listing_link li)
  /\ BasePlatform._apply_filters r it = true.
Proof.
  unfold BestbuyPlatform.process_listing.
  destruct (_ || _ || _); [discriminate|].
  match goal with |- context [BasePlatform._apply_filters ?x it] => set (res := x) end.
  destruct (BasePlatform._apply_filters res it) eqn:F; [|discriminate].
  intros E. injection E as <-. auto.
Qed.

Lemma walmart_json_inv it d r :
  WalmartPlatform.process_item_data it d = inr (Some r) ->
  exists t p link_path,
    r = mkResult WalmartPlatform.platform_name (name it) (JStr t) p None
          (Some ("https://www.walmart.com" ++ PyVal.str link_path)%string)
    /\ BasePlatform._apply_filters r it = true.
Proof.
  unfold WalmartPlatform.process_item_data.
  do 5 bind_inv.
  match goal with |- context [_clean_price ?a] => set (p := _clean_price a) end.
  bind_inv.
  destruct (PyVal.truthy x4).
  - destruct (_ || _ || _); [discriminate|].
    match goal with |- context [BasePlatform._apply_filters ?x it] => set (res := x) end.
    destruct (BasePlatform._apply_filters res it) eqn:F; [|discriminate].
    intros H. injection H as <-. exists x0, p, x4. auto.
  - cbn [Py.is_falsy]. rewrite !orb_true_r. discriminate.
Qed.

Lemma bestbuy_json_inv it d r :
  BestbuyPlatform.process_product it d = inr (Some r) ->
  exists t p l,
    r = mkResult BestbuyPlatform.platform_name (name it) t p None
          (Some (BestbuyPlatform.resolve_url l))
    /\ BasePlatform._apply_filters r it = true.
Proof.
  unfold BestbuyPlatform.process_product.
  do 3 bind_inv.
  match goal with |- context [_clean_price ?a] => set (p := _clean_price a) end.
  bind_inv.
  destruct (_ || _ || _); [discriminate|].
  bind_inv. destruct x2; try discriminate.
  match goal with |- context [BasePlatform._apply_filters ?x it] => set (res := x) end.
  destruct (BasePlatform._apply_filters res it) eqn:F; [|discriminate].
  intros H. injection H as <-. exists x, p, s. auto.
Qed.

(** ** A property of every loop body is a property of every result *)

Section SearchInvariant.

Variable it : ItemRequest.
Variable P : Platform -> Result -> Prop.

Hypothesis ebay_body :
  forall li r, EbayPlatform.process_listing it li = inr (Some r) -> P EBAY r.
Hypothesis amazon_body :
  forall li r, AmazonPlatform.process_listing it li = inr (Some r) -> P AMAZON r.
Hypothesis walmart_json_body :
  forall d r, WalmartPlatform.process_item_data it d = inr (Some r) -> P WALMART r.
Hypothesis walmart_html_body :
  forall li r, WalmartPlatform.process_listing it li = inr (Some r) -> P WALMART r.
Hypothesis bestbuy_json_body :
  forall d r, BestbuyPlatform.process_product it d = inr (Some r) -> P BESTBUY r.
Hypothesis bestbuy_html_body :
  forall li r, BestbuyPlatform.process_listing it li = inr (Some r) -> P BESTBUY r.

Lemma flat_map_invariant {A} (f : A -> M (option Result)) l (Q : Result -> Prop) :
  (forall x r, f x = inr (Some r) -> Q r) ->
  Forall Q (flat_map (fun x => listing_results (f x)) l).
Proof.
  intros H. apply Forall_forall. intros r I.
  apply in_flat_map_results in I as (x & _ & I). apply (H _ _ I).
Qed.

Lemma walmart_scan_invariant scripts :
  Forall (P WALMART) (snd (fst (WalmartPlatform.scan_scripts it scripts))).
Proof.
  induction scripts as [|s rest IH]; cbn [WalmartPlatform.scan_scripts]; [constructor|].
  unfold WalmartPlatform.script_step.
  destruct (Py.contains "searchContent" (script_text s)).
  - destruct (WalmartPlatform.script_items s) as [e|[entries|]].
    + destruct (WalmartPlatform.scan_scripts it rest) as [[lg rs] fj].
      destruct e; exact IH.
    + cbn. apply flat_map_invariant, walmart_json_body.
    + destruct (WalmartPlatform.scan_scripts it rest) as [[lg rs] fj]. exact IH.
  - destruct (WalmartPlatform.scan_scripts it rest) as [[lg rs] fj]. exact IH.
Qed.

Lemma bestbuy_entries_invariant entries results :
  Forall (P BESTBUY) results ->
  Forall (P BESTBUY) (fst (BestbuyPlatform.process_entries it entries results)).
Proof.
  revert results. induction entries as [|e rest IH]; intros results H;
    cbn [BestbuyPlatform.process_entries]; [exact H|].
  match goal with |- context [match ?m with inl _ => _ | inr _ => _ end] =>
    destruct m as [x|[d ty]] end; [exact H|].
  destruct (negb (PyVal.eq_str ty "Product")); [apply IH, H|].
  apply IH. apply Forall_app. split; [exact H|].
  apply Forall_forall. intros r I. apply in_listing_results in I.
  apply (bestbuy_json_body _ _ I).
Qed.

Lemma bestbuy_scan_invariant scripts results :
  Forall (P BESTBUY) results ->
  Forall (P BESTBUY) (snd (fst (BestbuyPlatform.scan_scripts it scripts results))).
Proof.
  revert results. induction scripts as [|s rest IH]; intros results H;
    cbn [BestbuyPlatform.scan_scripts]; [exact H|].
  assert (K : Forall (P BESTBUY) (snd (fst (BestbuyPlatform.script_step it s results)))).
  { unfold BestbuyPlatform.script_step.
    destruct (BestbuyPlatform.script_items s) as [e|[entries|]]; [exact H| |exact H].
    pose proof (bestbuy_entries_invariant entries results H) as K.
    destruct (BestbuyPlatform.process_entries it entries results) as [rs [e|u]]; exact K. }
  destruct (BestbuyPlatform.script_step it s results) as [[lg rs] f]. cbn in K.
  specialize (IH rs K).
  destruct (BestbuyPlatform.scan_scripts it rest rs) as [[lg' rs'] f']. exact IH.
Qed.

Lemma search_invariant p session_get rs :
  snd (search p it session_get) = inr rs -> Forall (P p) rs.
Proof.
  destruct p; cbn [search].
  - unfold EbayPlatform.search.
    destruct (BasePlatform._make_request _ session_get) as [l1 [resp|]];
      [|intros E; injection E as <-; constructor].
    destruct (BasePlatform._parse_html _ resp) as [l2 [soup|]];
      intros E; injection E as <-; [|constructor].
    apply flat_map_invariant, ebay_body.
  - unfold AmazonPlatform.search.
    destruct (BasePlatform._make_request _ session_get) as [l1 [resp|]];
      [|intros E; injection E as <-; constructor].
    destruct (AmazonPlatform.is_blocked resp); [intros E; injection E as <-; constructor|].
    destruct (BasePlatform._parse_html _ resp) as [l2 [soup|]];
      intros E; injection E as <-; [|constructor].
    apply flat_map_invariant, amazon_body.
  - unfold WalmartPlatform.search.
    destruct (BasePlatform._make_request _ session_get) as [l1 [resp|]];
      [|intros E; injection E as <-; constructor].
    destruct (WalmartPlatform.is_blocked resp); [intros E; injection E as <-; constructor|].
    destruct (BasePlatform._parse_html _ resp) as [l2 [soup|]];
      [|intros E; injection E as <-; constructor].
    pose proof (walmart_scan_invariant (select_scripts soup WalmartPlatform.SCRIPT_SELECTOR))
      as K.
    destruct (WalmartPlatform.scan_scripts it _) as [[l3 rs0] fj]. cbn in K.
    intros E; injection E as <-.
    destruct (negb fj); [|exact K].
    apply Forall_app. split; [exact K|]. apply flat_map_invariant, walmart_html_body.
  - unfold BestbuyPlatform.search.
    destruct (BasePlatform._make_request _ session_get) as [l1 [resp|]];
      [|intros E; injection E as <-; constructor].
    destruct (BestbuyPlatform.is_blocked resp); [intros E; injection E as <-; constructor|].
    destruct (BasePlatform._parse_html _ resp) as [l2 [soup|]];
      [|intros E; injection E as <-; constructor].
    pose proof (bestbuy_scan_invariant (select_scripts soup BestbuyPlatform.SCRIPT_SELECTOR_BB)
                  [] (Forall_nil _)) as K.
    destruct (BestbuyPlatform.scan_scripts it _ _) as [[l3 rs0] fj]. cbn in K.
    intros E; injection E as <-.
    destruct (negb fj); [|exact K].
    apply Forall_app. split; [exact K|]. apply flat_map_invariant, bestbuy_html_body.
Qed.

End SearchInvariant.

(** ** Every result passes the filters of its request *)

Lemma apply_filters_true r it :
  BasePlatform._apply_filters r it = true ->
  exists q, price r = Some q /\ float_gt q (max_price it) = false.
Proof.
  unfold BasePlatform._apply_filters. destruct (price r) as [q|]; [|discriminate].
  destruct (float_gt q (max_price it)) eqn:G; [discriminate|].
  intros _. exists q. auto.
Qed.

Lemma apply_ebay_filters_true r it :
  EbayPlatform._apply_ebay_filters r it = true ->
  float_gt (min_seller_rating it) float_zero = true ->
  exists s, seller_rating r = Some s /\ float_lt s (min_seller_rating it) = false.
Proof.
  unfold EbayPlatform._apply_ebay_filters. intros H G. rewrite G in H.
  destruct (seller_rating r) as [s|]; [|discriminate].
  destruct (float_lt s (min_seller_rating it)) eqn:L; [discriminate|].
  exists s. auto.
Qed.

(** X1. Every result [search] returns is labelled with the platform
    that found it and with the name of the item searched for, and its
    price is present and not greater than the request's [max_price]. *)
Theorem search_results_within_budget p it session_get rs r :
  snd (search p it session_get) = inr rs -> In r rs ->
  platform r = platform_name p
  /\ item r = name it
  /\ exists q, price r = Some q /\ float_gt q (max_price it) = false.
Proof.
  intros E I.
  pose proof (search_invariant it
    (fun p r => platform r = platform_name p /\ item r = name it
                /\ BasePlatform._apply_filters r it = true)) as S.
  assert (F : Forall (fun r => platform r = platform_name p /\ item r = name it
                               /\ BasePlatform._apply_filters r it = true) rs).
  { eapply S; [ | | | | | | exact E].
    - intros li x H. apply ebay_body_inv in H as (sr & _ & -> & F & _). auto.
    - intros li x H. apply amazon_body_inv in H as (_ & -> & F). auto.
    - intros d x H. apply walmart_json_inv in H as (t & q & lp & -> & F). auto.
    - intros li x H. apply walmart_body_inv in H as (-> & F). auto.
    - intros d x H. apply bestbuy_json_inv in H as (t & q & l & -> & F). auto.
    - intros li x H. apply bestbuy_body_inv in H as (-> & F). auto. }
  rewrite Forall_forall in F. destruct (F r I) as (A & B & C).
  split; [exact A|]. split; [exact B|]. apply apply_filters_true, C.
Qed.

Lemma search_results_within_budget_witness :
  platform range_result = platform_name EBAY
  /\ item range_result = "usb cable"%string
  /\ exists q, price range_result = Some q /\ float_gt q (Finite 10) = false.
Proof.
  apply (search_results_within_budget EBAY (mkItem "usb cable" (Finite 10) (Finite 95))
           (inr ebay_page) [range_result] range_result);
    [reflexivity | left; reflexivity].
Defined.

(** X2. Only eBay fills in a seller rating.  When the request asks for
    a positive minimum rating, every eBay result has a rating and it is
    not below the minimum; the results of the other adapters carry no
    rating. *)
Theorem search_results_rating p it session_get rs r :
  snd (search p it session_get) = inr rs -> In r rs ->
  (p = EBAY -> float_gt (min_seller_rating it) float_zero = true ->
   exists s, seller_rating r = Some s /\ float_lt s (min_seller_rating it) = false)
  /\ (p <> EBAY -> seller_rating r = None).
Proof.
  intros E I.
  pose proof (search_invariant it
    (fun p r => (p = EBAY -> EbayPlatform._apply_ebay_filters r it = true)
                /\ (p <> EBAY -> seller_rating r = None))) as S.
  assert (F : Forall (fun r => (p = EBAY -> EbayPlatform._apply_ebay_filters r it = true)
                               /\ (p <> EBAY -> seller_rating r = None)) rs).
  { eapply S; [ | | | | | | exact E].
    - intros li x H. apply ebay_body_inv in H as (sr & _ & _ & _ & G).
      split; [auto | intros N; contradiction].
    - intros li x H. apply amazon_body_inv in H as (_ & -> & _).
      split; [discriminate | reflexivity].
    - intros d x H. apply walmart_json_inv in H as (t & q & lp & -> & _).
      split; [discriminate | reflexivity].
    - intros li x H. apply walmart_body_inv in H as (-> & _).
      split; [discriminate | reflexivity].
    - intros d x H. apply bestbuy_json_inv in H as (t & q & l & -> & _).
      split; [discriminate | reflexivity].
    - intros li x H. apply bestbuy_body_inv in H as (-> & _).
      split; [discriminate | reflexivity]. }
  rewrite Forall_forall in F. destruct (F r I) as (A & B).
  split; [|exact B]. intros -> G. apply apply_ebay_filters_true; auto.
Qed.

Lemma search_results_rating_witness :
  (exists s, seller_rating range_result = Some s /\ float_lt s (Finite 95) = false)
  /\ seller_rating tv_result = None.
Proof.
  split.
  - apply (proj1 (search_results_rating EBAY (mkItem "usb cable" (Finite 10) (Finite 95))
                    (inr ebay_page) [range_result] range_result eq_refl
                    (or_introl eq_refl))); reflexivity.
  - apply (proj2 (search_results_rating BESTBUY (mkItem "tv" (Finite 500) (Finite 0))
                    (inr (bestbuy_page (item_list [list_item 2 tv_product])))
                    [tv_result] tv_result eq_refl (or_introl eq_refl))).
    discriminate.
Defined.

(** ** Links that are always absolute *)






(** ** Failed requests and pages that cannot be parsed *)

Lemma make_request_failed name session_get :
  (exists e, session_get = inl e)
  \/ (exists resp, session_get = inr resp
                   /\ (400 <= status_code resp)%Z /\ (status_code resp < 600)%Z) ->
  BasePlatform._make_request name session_get = ([mkLog name RequestFailed], None).
Proof.
  unfold BasePlatform._make_request, BasePlatform.raise_for_status.
  intros [(e & ->)|(resp & -> & L & U)]; [reflexivity|]. cbn [bind].
  apply Z.leb_le in L. apply Z.ltb_lt in U. rewrite L, U. reflexivity.
Qed.

(** X4. When the request raises, or is answered with a 4xx or 5xx
    status, every adapter logs the failed request and returns the empty
    list. *)
Theorem failed_request_yields_nothing p it session_get :
  (exists e, session_get = inl e)
  \/ (exists resp, session_get = inr resp
                   /\ (400 <= status_code resp)%Z /\ (status_code resp < 600)%Z) ->
  search p it session_get = ([mkLog (platform_name p) RequestFailed], inr []).
Proof.
  intros H. destruct p; cbn [search platform_name];
    [unfold EbayPlatform.search | unfold AmazonPlatform.search
     | unfold WalmartPlatform.search | unfold BestbuyPlatform.search];
    rewrite (make_request_failed _ _ H); reflexivity.
Qed.

Lemma failed_request_yields_nothing_witness :
  search EBAY sample_item (inl RequestException) = ([mkLog "eBay" RequestFailed], inr [])
  /\ search WALMART sample_item
       (inr (mkResponse "https://www.walmart.com/search?q=x" 503 "<html>busy</html>"
               (parsed captcha_page)))
     = ([mkLog "Walmart" RequestFailed], inr []).
Proof.
  split.
  - apply (failed_request_yields_nothing EBAY). left. exists RequestException. reflexivity.
  - apply (failed_request_yields_nothing WALMART). right. eexists.
    split; [reflexivity|]. cbn. split; lia.
Defined.

(** X5. A fetched page that is not a block page yields no result when
    its body is empty (nothing is logged) or when the HTML parser raises
    (the parse error is logged). *)
Theorem unparsed_page_yields_nothing p it resp :
  BasePlatform.raise_for_status resp = inr tt ->
  block_signature p resp = false ->
  text resp = EmptyString \/ (exists e, parsed resp = inl e) ->
  search p it (inr resp)
  = (if Py.is_empty (text resp) then [] else [mkLog (platform_name p) HtmlParseFailed],
     inr []).
Proof.
  intros S B H.
  assert (K : forall name, BasePlatform._parse_html name resp
              = (if Py.is_empty (text resp) then [] else [mkLog name HtmlParseFailed], None)).
  { intros name. unfold BasePlatform._parse_html.
    destruct H as [->|(e & ->)]; [reflexivity|].
    destruct (Py.is_empty (text resp)); reflexivity. }
  destruct p; cbn [search platform_name block_signature] in *.
  - unfold EbayPlatform.search. rewrite (make_request_ok _ _ S), K. reflexivity.
  - unfold AmazonPlatform.search. rewrite (make_request_ok _ _ S), B, K. reflexivity.
  - unfold WalmartPlatform.search. rewrite (make_request_ok _ _ S), B, K. reflexivity.
  - unfold BestbuyPlatform.search. rewrite (make_request_ok _ _ S), B, K. reflexivity.
Qed.

Lemma unparsed_page_yields_nothing_witness :
  search EBAY sample_item
    (inr (mkResponse "https://www.ebay.com/sch/i.html" 200 "" (parsed ebay_page)))
  = ([], inr [])
  /\ search AMAZON sample_item
       (inr (mkResponse "https://www.amazon.com/s?k=x" 200 "<html" (inl ValueError)))
     = ([mkLog "Amazon" HtmlParseFailed], inr []).
Proof.
  split.
  - apply (unparsed_page_yields_nothing EBAY sample_item
             (mkResponse "https://www.ebay.com/sch/i.html" 200 "" (parsed ebay_page)));
      [reflexivity | reflexivity | left; reflexivity].
  - apply (unparsed_page_yields_nothing AMAZON sample_item
             (mkResponse "https://www.amazon.com/s?k=x" 200 "<html" (inl ValueError)));
      [reflexivity | reflexivity | right; exists ValueError; reflexivity].
Defined.

(** ** The seller rating of an eBay listing *)




(** ** Price cleaning on any argument *)





(** ** Sponsored listings on Amazon *)

Lemma flat_map_filter {A B} (f : A -> list B) (keep : A -> bool) l :
  (forall x, keep x = false -> f x = []) ->
  flat_map f (List.filter keep l) = flat_map f l.
Proof.
  intros H. induction l as [|x r IH]; [reflexivity|]. cbn [List.filter flat_map].
  destruct (keep x) eqn:K; cbn [flat_map]; rewrite IH; [reflexivity|].
  rewrite (H _ K). reflexivity.
Qed.

(** X9. Sponsored listings do not count on Amazon: [search] returns
    for a page what it returns for the same page without the containers
    that carry the sponsored label, and logs the same. *)
Theorem amazon_ignores_sponsored it resp soup :
  parsed resp = inr soup ->
  search AMAZON it (inr resp)
  = search AMAZON it
      (inr (mkResponse (url resp) (status_code resp) (text resp)
              (inr (without_sponsored soup)))).
Proof.
  intros Hp. cbn [search]. unfold AmazonPlatform.search, BasePlatform._make_request.
  cbn [bind]. unfold BasePlatform.raise_for_status. cbn [status_code].
  destruct ((400 <=? status_code resp)%Z && (status_code resp <? 600)%Z);
    cbn [bind raise ret]; [reflexivity|].
  unfold AmazonPlatform.is_blocked. cbn [text].
  destruct (_ || _); [reflexivity|].
  unfold BasePlatform._parse_html. cbn [text parsed]. rewrite Hp.
  destruct (Py.is_empty (text resp)); [reflexivity|].
  cbn [without_sponsored select]. rewrite flat_map_filter; [reflexivity|].
  intros li K. unfold AmazonPlatform.process_listing.
  destruct (select_one li AmazonPlatform.SPONSORED_SELECTOR); [reflexivity | discriminate].
Qed.

Lemma amazon_ignores_sponsored_witness :
  search AMAZON sample_item
    (inr (mkResponse "https://www.amazon.com/s?k=rtx" 200 "<html>...</html>" (inr amazon_soup)))
  = search AMAZON sample_item
      (inr (mkResponse "https://www.amazon.com/s?k=rtx" 200 "<html>...</html>"
              (inr (without_sponsored amazon_soup)))).
Proof.
  apply (amazon_ignores_sponsored sample_item
           (mkResponse "https://www.amazon.com/s?k=rtx" 200 "<html>...</html>"
              (inr amazon_soup)) amazon_soup).
  reflexivity.
Defined.

(** ** Walmart: the first script with items decides *)

Lemma walmart_scan_skip it pre rest :
  Forall (fun s => snd (WalmartPlatform.script_step it s) = None) pre ->
  snd (fst (WalmartPlatform.scan_scripts it (pre ++ rest)))
  = snd (fst (WalmartPlatform.scan_scripts it rest))
  /\ snd (WalmartPlatform.scan_scripts it (pre ++ rest))
     = snd (WalmartPlatform.scan_scripts it rest).
Proof.
  induction 1 as [|s pre Hs _ IH]; [split; reflexivity|].
  cbn [app WalmartPlatform.scan_scripts].
  destruct (WalmartPlatform.script_step it s) as [lg [rs|]]; [discriminate|].
  destruct (WalmartPlatform.scan_scripts it (pre ++ rest)) as [[l1 r1] f1].
  exact IH.
Qed.

(** X10. On Walmart the first script whose embedded JSON has items
    decides: the results are the items of that script that pass, and
    neither the scripts after it nor the HTML listing containers add
    anything, even when none of its items passes. *)
Theorem walmart_first_script_decides it resp soup pre s post lg results :
  BasePlatform.raise_for_status resp = inr tt ->
  WalmartPlatform.is_blocked resp = false ->
  Py.is_empty (text resp) = false ->
  parsed resp = inr soup ->
  select_scripts soup WalmartPlatform.SCRIPT_SELECTOR = pre ++ s :: post ->
  Forall (fun x => snd (WalmartPlatform.script_step it x) = None) pre ->
  WalmartPlatform.script_step it s = (lg, Some results) ->
  snd (search WALMART it (inr resp)) = inr results.
Proof.
  intros S B T Hp Hs Hpre Hstep. cbn [search]. unfold WalmartPlatform.search.
  rewrite (make_request_ok _ _ S), B. unfold BasePlatform._parse_html. rewrite T, Hp, Hs.
  destruct (walmart_scan_skip it pre (s :: post) Hpre) as [R F].
  destruct (WalmartPlatform.scan_scripts it (pre ++ s :: post)) as [[l3 rs] fj].
  cbn [fst snd] in R, F. cbn [WalmartPlatform.scan_scripts] in R, F.
  rewrite Hstep in R, F. cbn [fst snd] in R, F. subst rs fj. reflexivity.
Qed.

Lemma walmart_first_script_decides_witness :
  snd (search WALMART sample_item
         (inr (mkResponse "https://www.walmart.com/search?q=cable" 200 "<html>...</html>"
                 (inr (mkSoup
                         (fun _ => [walmart_listing "RTX 3080" "$450.00" (Some "/ip/1")])
                         (fun _ => [mkScript "{}" (inr (JObj []));
                                    walmart_script [walmart_cable];
                                    walmart_script [walmart_cable; walmart_cable]]))))))
  = inr [mkResult "Walmart" "RTX 3080" (JStr "USB cable") (Some (Finite (499 # 100))) None
                  (Some "https://www.walmart.com/ip/usb-cable/9"%string)].
Proof.
  eapply (walmart_first_script_decides sample_item _ _
            [mkScript "{}" (inr (JObj []))] (walmart_script [walmart_cable])
            [walmart_script [walmart_cable; walmart_cable]]);
    try reflexivity.
  repeat constructor.
Defined.

(** ** Best Buy: every JSON-LD block is read *)

(** X11. Best Buy's loop over the JSON-LD blocks has no [break]:
    reading the scripts [a ++ b] is reading [a] and then [b] from the
    results [a] left, the logs follow each other, and [found_json] is
    set as soon as one block sets it.  The results already collected are
    never lost: they stay at the front of the list. *)
Theorem bestbuy_scan_composes it a b results :
  BestbuyPlatform.scan_scripts it (a ++ b) results
  = (let '(lg1, r1, f1) := BestbuyPlatform.scan_scripts it a results in
     let '(lg2, r2, f2) := BestbuyPlatform.scan_scripts it b r1 in
     (lg1 ++ lg2, r2, f1 || f2))
  /\ exists added,
       snd (fst (BestbuyPlatform.scan_scripts it a results)) = results ++ added.
Proof.
  split.
  - revert results. induction a as [|s a IH]; intros results.
    + cbn [app BestbuyPlatform.scan_scripts].
      destruct (BestbuyPlatform.scan_scripts it b results) as [[lg2 r2] f2]. reflexivity.
    + cbn [app BestbuyPlatform.scan_scripts].
      destruct (BestbuyPlatform.script_step it s results) as [[lg r] f].
      rewrite IH.
      destruct (BestbuyPlatform.scan_scripts it a r) as [[lg1 r1] f1].
      destruct (BestbuyPlatform.scan_scripts it b r1) as [[lg2 r2] f2].
      rewrite app_assoc, orb_assoc. reflexivity.
  - assert (E : forall entries rs, exists added,
                 fst (BestbuyPlatform.process_entries it entries rs) = rs ++ added).
    { induction entries as [|e rest IH]; intros rs; cbn [BestbuyPlatform.process_entries].
      - exists []. rewrite app_nil_r. reflexivity.
      - match goal with |- context [match ?m with inl _ => _ | inr _ => _ end] =>
          destruct m as [x|[d ty]] end.
        + exists []. rewrite app_nil_r. reflexivity.
        + destruct (negb (PyVal.eq_str ty "Product")); [apply IH|].
          destruct (IH (rs ++ listing_results (BestbuyPlatform.process_product it d)))
            as (added & ->).
          eexists. rewrite <- app_assoc. reflexivity. }
    revert results. induction a as [|s a IH]; intros results.
    + exists []. rewrite app_nil_r. reflexivity.
    + cbn [BestbuyPlatform.scan_scripts].
      assert (K : exists added,
                 snd (fst (BestbuyPlatform.script_step it s results)) = results ++ added).
      { unfold BestbuyPlatform.script_step.
        destruct (BestbuyPlatform.script_items s) as [e|[entries|]];
          try (exists []; rewrite app_nil_r; reflexivity).
        destruct (E entries results) as (added & K).
        destruct (BestbuyPlatform.process_entries it entries results) as [rs [e|u]];
          exists added; exact K. }
      destruct K as (added & K).
      destruct (BestbuyPlatform.script_step it s results) as [[lg r] f]. cbn in K. subst r.
      destruct (IH (results ++ added)) as (added' & K').
      destruct (BestbuyPlatform.scan_scripts it a (results ++ added)) as [[lg1 r1] f1].
      cbn in K'. subst r1. exists (added ++ added'). cbn. rewrite app_assoc. reflexivity.
Qed.

(** ** Best Buy: an entry that is not a product dict ends its block *)

Lemma broken_entry_raises item_entry :
  entry_is_broken item_entry ->
  (item_data <- PyVal.get item_entry "item" item_entry ;;
   type <- PyVal.get item_data "@type" JNull ;;
   ret (item_data, type)) = inl AttributeError.
Proof.
  intros [H|(m & x & -> & L & H)].
  - destruct item_entry; try reflexivity. discriminate.
  - cbn [PyVal.get bind ret]. rewrite L. destruct x; try reflexivity. discriminate.
Qed.

(** X12. In a JSON-LD block of Best Buy, an entry that is not a dict,
    or whose ['item'] is not a dict, ends the block with
    [AttributeError]: the results of the entries before it are kept and
    the entries after it are not read, whatever they are. *)
Theorem bestbuy_broken_entry_ends_block it good bad rest results kept :
  BestbuyPlatform.process_entries it good results = (kept, inr tt) ->
  entry_is_broken bad ->
  BestbuyPlatform.process_entries it (good ++ bad :: rest) results
  = (kept, inl AttributeError).
Proof.
  revert results. induction good as [|e good IH]; intros results G B.
  - cbn in G. injection G as <-. cbn [app BestbuyPlatform.process_entries].
    rewrite (broken_entry_raises _ B). reflexivity.
  - cbn [app BestbuyPlatform.process_entries] in *.
    match goal with |- context [match ?m with inl _ => _ | inr _ => _ end] =>
      destruct m as [x|[d ty]] end; [discriminate|].
    destruct (negb (PyVal.eq_str ty "Product")); apply IH; assumption.
Qed.

Lemma bestbuy_broken_entry_ends_block_witness :
  BestbuyPlatform.process_entries (mkItem "tv" (Finite 500) (Finite 0))
    ([list_item 1 tv_product] ++ JStr "https://www.bestbuy.com/site/a" :: [list_item 3 tv_product])
    []
  = ([tv_result], inl AttributeError).
Proof.
  apply (bestbuy_broken_entry_ends_block (mkItem "tv" (Finite 500) (Finite 0))
           [list_item 1 tv_product] (JStr "https://www.bestbuy.com/site/a")
           [list_item 3 tv_product] [] [tv_result]).
  - reflexivity.
  - left. reflexivity.
Defined.

(** * Further properties of the store *)

Lemma link_conflict_in db l :
  link_conflict db (Some l) = true <-> In l (table_links db).
Proof.
  unfold link_conflict, table_links. rewrite existsb_exists, in_flat_map.
  split; intros (row & I & H); exists row; (split; [exact I|]).
  - unfold same_link in H. destruct (row_link row) as [l'|]; [|discriminate].
    apply String.eqb_eq in H. subst. left. reflexivity.
  - unfold same_link. destruct (row_link row) as [l'|]; [|destruct H].
    destruct H as [->|[]]. apply String.eqb_refl.
Qed.

Lemma next_id_above db row : In row db -> (row_id row < next_id db)%Z.
Proof.
  unfold next_id. induction db as [|x db IH]; [intros []|].
  cbn [fold_right]. intros [->|I]; [lia|]. specialize (IH I). lia.
Qed.

Lemma table_links_app db extra :
  table_links (db ++ extra) = table_links db ++ table_links extra.
Proof. unfold table_links. apply flat_map_app. Qed.

(** One [INSERT OR IGNORE]: the table is unchanged or has one more row,
    made of the result, whose link was not there and whose id is new. *)
Lemma execute_insert_step now db r db' rowcount :
  execute_insert now db r = inr (db', rowcount) ->
  (db' = db /\ rowcount = 0%nat /\ link_conflict db (link r) = true)
  \/ (exists row, db' = db ++ [row] /\ rowcount = 1%nat
                  /\ link_conflict db (link r) = false
                  /\ row_link row = link r /\ row_id row = next_id db
                  /\ found_timestamp row = now
                  /\ bind_title (title r) = inr (row_title row)
                  /\ row_platform row = platform r /\ row_search_term row = item r
                  /\ row_price row = price r /\ row_seller_rating row = seller_rating r).
Proof.
  unfold execute_insert. destruct (bind_title (title r)) as [e|t] eqn:B; [discriminate|].
  cbn [bind]. destruct (link_conflict db (link r)) eqn:C; intros E; injection E as <- <-.
  - left. auto.
  - right. eexists. split; [reflexivity|]. cbn. repeat split; reflexivity.
Qed.

Lemma save_loop_invariants now results :
  forall db counts db' counts',
  save_loop now db counts results = inr (db', counts') ->
  NoDup (table_links db) -> NoDup (table_ids db) ->
  NoDup (table_links db') /\ NoDup (table_ids db') /\ exists added, db' = db ++ added.
Proof.
  induction results as [|r rest IH]; intros db [i g] db' counts' E L I.
  - cbn in E. injection E as <- <-. repeat split; auto. exists []. symmetry. apply app_nil_r.
  - cbn [save_loop] in E.
    destruct (execute_insert now db r) as [e|[db1 rc]] eqn:X.
    + destruct e; try discriminate. apply (IH _ _ _ _ E L I).
    + assert (K : NoDup (table_links db1) /\ NoDup (table_ids db1)
                  /\ exists added, db1 = db ++ added).
      { destruct (execute_insert_step _ _ _ _ _ X)
          as [(-> & _ & _)|(row & -> & _ & C & Rl & Ri & _)].
        - repeat split; auto. exists []. symmetry. apply app_nil_r.
        - split; [|split; [|exists [row]; reflexivity]].
          + rewrite table_links_app. unfold table_links at 2. cbn [flat_map].
            rewrite Rl, app_nil_r. destruct (link r) as [l|]; [|rewrite app_nil_r; exact L].
            apply NoDup_app; [exact L | repeat constructor; intros [] |].
            intros x Hx [<-|[]]. apply link_conflict_in in Hx. congruence.
          + unfold table_ids. rewrite map_app. cbn [List.map].
            apply NoDup_app; [exact I | repeat constructor; intros [] |].
            intros x Hx [<-|[]]. apply in_map_iff in Hx as (row' & Hid & Hin).
            pose proof (next_id_above _ _ Hin). lia. }
      destruct K as (L1 & I1 & added & ->).
      assert (T : exists c1, save_loop now (db ++ added) c1 rest = inr (db', counts')).
      { destruct (0 <? rc)%nat; [eexists; exact E|].
        destruct (negb (Py.is_falsy (link r))); eexists; exact E. }
      destruct T as (c1 & T).
      destruct (IH _ _ _ _ T L1 I1) as (L2 & I2 & added' & ->).
      repeat split; auto. exists (added ++ added'). apply eq_sym, app_assoc.
Qed.

(** X13. [save_results] keeps the table sound: if no link and no id
    occurs twice before the call, none does after it; and the rows that
    were there are still there, unchanged and in place (the table only
    grows at its end). *)
Theorem save_results_keeps_table_sound now db results :
  NoDup (table_links db) -> NoDup (table_ids db) ->
  let db' := fst (save_results now db results) in
  NoDup (table_links db') /\ NoDup (table_ids db') /\ exists added, db' = db ++ added.
Proof.
  intros L I. unfold save_results. destruct results as [|r rest].
  - cbn. repeat split; auto. exists []. symmetry. apply app_nil_r.
  - destruct (save_loop now db (0%nat, 0%nat) (r :: rest)) as [e|[db' c]] eqn:E.
    + cbn. repeat split; auto. exists []. symmetry. apply app_nil_r.
    + cbn. apply (save_loop_invariants _ _ _ _ _ _ E L I).
Qed.

Lemma save_results_keeps_table_sound_witness :
  let db' := fst (save_results 100 [] [stored_tv; stored_cable; stored_tv]) in
  NoDup (table_links db') /\ NoDup (table_ids db') /\ exists added, db' = [] ++ added.
Proof.
  apply (save_results_keeps_table_sound 100 [] [stored_tv; stored_cable; stored_tv]);
    constructor.
Defined.

Lemma save_loop_counts now results :
  forall db i g db' i' g',
  save_loop now db (i, g) results = inr (db', (i', g')) ->
  (List.length db' + i = List.length db + i')%nat
  /\ (i' + g' <= i + g + List.length results)%nat
  /\ (i <= i')%nat /\ (g <= g')%nat.
Proof.
  induction results as [|r rest IH]; intros db i g db' i' g' E.
  - cbn in E. injection E as <- <- <-. cbn. lia.
  - cbn [save_loop] in E. cbn [List.length].
    destruct (execute_insert now db r) as [e|[db1 rc]] eqn:X.
    + destruct e; try discriminate. specialize (IH _ _ _ _ _ _ E). lia.
    + destruct (execute_insert_step _ _ _ _ _ X)
        as [(-> & -> & _)|(row & -> & -> & _)].
      * change (0 <? 0)%nat with false in E. cbv iota in E.
        destruct (negb (Py.is_falsy (link r))); specialize (IH _ _ _ _ _ _ E); lia.
      * change (0 <? 1)%nat with true in E. cbv iota in E.
        specialize (IH _ _ _ _ _ _ E). rewrite length_app in IH. cbn in IH. lia.
Qed.

(** X14. The counters [save_results] logs are exact: [inserted] is the
    number of rows the call added to the table, and [inserted] and
    [ignored] together never exceed the number of results given. *)
Theorem save_results_counters now db results db' inserted ignored :
  save_results now db results = (db', inr (Some (inserted, ignored))) ->
  List.length db' = (List.length db + inserted)%nat
  /\ (inserted + ignored <= List.length results)%nat.
Proof.
  unfold save_results. destruct results as [|r rest]; [discriminate|].
  destruct (save_loop now db (0%nat, 0%nat) (r :: rest)) as [e|[db1 [i g]]] eqn:E;
    [discriminate|].
  intros H. injection H as <- <- <-.
  pose proof (save_loop_counts _ _ _ _ _ _ _ _ E). lia.
Qed.

Lemma save_results_counters_witness :
  List.length (fst (save_results 100 [] [stored_tv; stored_cable; stored_tv]))
  = (List.length (@nil Row) + 2)%nat
  /\ (2 + 1 <= List.length [stored_tv; stored_cable; stored_tv])%nat.
Proof.
  apply (save_results_counters 100 [] [stored_tv; stored_cable; stored_tv] _ 2 1).
  reflexivity.
Defined.




(** * Further properties of the cycle and of the input file *)

Lemma resave_adds_nothing now1 now2 db results :
  Forall (fun r => storable r = true) results ->
  save_results now2 (fst (save_results now1 db results)) results
  = (fst (save_results now1 db results),
     match results with
     | [] => inr None
     | _ => inr (Some (0%nat, List.length results))
     end).
Proof.
  intros St. destruct results as [|r rest]; [reflexivity|].
  destruct (save_loop_storable now1 _ St db (0%nat, 0%nat)) as (extra & c' & E & K).
  unfold save_results at 2 3. rewrite E. cbn [fst]. unfold save_results.
  rewrite (save_loop_all_present now2 _ St (db ++ extra) 0 0 K). reflexivity.
Qed.

(** X16. Running the cycle again on the same file, with platforms that
    answer the same, adds no row: when every result of the cycle can be
    stored, the second cycle hands the same aggregate to [save_results],
    leaves the table as the first cycle left it, and counts every result
    as ignored. *)
Theorem second_cycle_adds_nothing
  (platform_instances : list PlatformInstance) (input_file : InputFile)
  (now1 now2 : Z) (db : Db) :
  Forall (fun r => storable r = true)
         (search_platforms platform_instances (read_input_file input_file)) ->
  let first := run_search_cycle platform_instances input_file now1 db in
  let second := run_search_cycle platform_instances input_file now2 (db_after first) in
  db_after second = db_after first
  /\ handed_to_save second = handed_to_save first
  /\ save_outcome second
     = match handed_to_save first with
       | Some (r :: rest) => inr (Some (0%nat, List.length (r :: rest)))
       | _ => inr None
       end.
Proof.
  intros St first second. unfold second, first, run_search_cycle.
  destruct platform_instances as [|p ps]; [repeat split; reflexivity|].
  destruct (read_input_file input_file) as [|i0 items]; [repeat split; reflexivity|].
  set (agg := search_platforms (p :: ps) (i0 :: items)) in *.
  pose proof (resave_adds_nothing now1 now2 db agg St) as R.
  destruct (save_results now1 db agg) as [db1 o1]. cbn [fst] in R. cbn [db_after].
  rewrite R. cbn [db_after handed_to_save save_outcome].
  destruct agg; repeat split; reflexivity.
Qed.

Lemma second_cycle_adds_nothing_witness :
  let first := run_search_cycle scenario_platforms one_item_file 100 [] in
  let second := run_search_cycle scenario_platforms one_item_file 200 (db_after first) in
  db_after second = db_after first
  /\ handed_to_save second = handed_to_save first
  /\ save_outcome second
     = match handed_to_save first with
       | Some (r :: rest) => inr (Some (0%nat, List.length (r :: rest)))
       | _ => inr None
       end.
Proof.
  apply (second_cycle_adds_nothing scenario_platforms one_item_file 100 200 []).
  repeat constructor.
Defined.

Lemma read_input_file_nothing f :
  path_exists f = false
  \/ (exists e, read f = inl e)
  \/ (exists content, read f = inr content /\ Py.is_empty (Py.strip content) = true)
  \/ (exists e, json_loads f = inl e)
  \/ (exists v, json_loads f = inr v /\ (PyVal.is_list v = false \/ v = JArr [])) ->
  read_input_file f = [].
Proof.
  unfold read_input_file.
  intros [->|H]; [reflexivity|]. destruct (negb (path_exists f)); [reflexivity|].
  destruct H as [(e & ->)|H]; [reflexivity|].
  destruct (read f) as [e|content]; [reflexivity|]. cbn [bind].
  destruct H as [(c & E & S)|H]; [injection E as <-; rewrite S; reflexivity|].
  destruct (Py.is_empty (Py.strip content)); [reflexivity|].
  destruct H as [(e & ->)|(v & -> & [L| ->])]; [reflexivity| |reflexivity].
  cbn [bind]. destruct v; try reflexivity. discriminate.
Qed.

(** X17. A cycle with no platform, or whose input file is missing,
    unreadable, blank, undecodable, not a list or the empty list, ends
    before the search: nothing is handed to [save_results] and the table
    is as it was, whatever the platforms would have answered. *)
Theorem cycle_without_items_saves_nothing
  (platform_instances : list PlatformInstance) (f : InputFile) (now : Z) (db : Db) :
  platform_instances = []
  \/ path_exists f = false
  \/ (exists e, read f = inl e)
  \/ (exists content, read f = inr content /\ Py.is_empty (Py.strip content) = true)
  \/ (exists e, json_loads f = inl e)
  \/ (exists v, json_loads f = inr v /\ (PyVal.is_list v = false \/ v = JArr [])) ->
  run_search_cycle platform_instances f now db = mkCycle None db (inr None).
Proof.
  intros [->|H]; [reflexivity|]. unfold run_search_cycle.
  rewrite (read_input_file_nothing _ H). destruct platform_instances; reflexivity.
Qed.

Lemma cycle_without_items_saves_nothing_witness :
  run_search_cycle scenario_platforms (mkInputFile true (inr "[]") (inr (JArr []))) 100
    [mkRow 1 "eBay" "tv" (JStr "OLED TV") (Some (Finite 450)) None
           (Some "https://www.ebay.com/itm/123"%string) 50]
  = mkCycle None
      [mkRow 1 "eBay" "tv" (JStr "OLED TV") (Some (Finite 450)) None
             (Some "https://www.ebay.com/itm/123"%string) 50]
      (inr None).
Proof.
  apply (cycle_without_items_saves_nothing scenario_platforms
           (mkInputFile true (inr "[]") (inr (JArr [])))).
  do 5 right. exists (JArr []). split; [reflexivity | right; reflexivity].
Defined.

Lemma validate_items_raises before bad after e :
  validate_item bad = inl e ->
  exists e', validate_items (before ++ bad :: after) = inl e'.
Proof.
  intros B. induction before as [|v before (e' & IH)]; cbn [app validate_items].
  - rewrite B. exists e. reflexivity.
  - destruct (validate_item v) as [e1|o]; cbn [bind]; [exists e1; reflexivity|].
    rewrite IH. exists e'. reflexivity.
Qed.

(** X18. One record can empty the whole result: when a dict of the
    file has a name and an integer [max_price] too large for a float
    (2^1024 - 2^970 or more in absolute value), [float] raises
    [OverflowError], which only the outer handler catches, and
    [read_input_file] returns the empty list, dropping the valid records
    too. *)
Theorem overflowing_max_price_empties_result f content before m n z after :
  path_exists f = true ->
  read f = inr content ->
  json_loads f = inr (JArr (before ++ JObj m :: after)) ->
  PyVal.lookup "name" m = Some n ->
  PyVal.lookup "max_price" m = Some (JInt z) ->
  (float_overflow_bound <= Z.abs z)%Z ->
  read_input_file f = [].
Proof.
  intros X R J N Mx O. unfold read_input_file. rewrite X, R, J. cbn [negb bind].
  destruct (Py.is_empty (Py.strip content)); [reflexivity|].
  assert (B : validate_item (JObj m) = inl OverflowError).
  { cbn [validate_item]. rewrite N, Mx. unfold py_float.
    apply Z.ltb_ge in O. rewrite O. reflexivity. }
  destruct (validate_items_raises before _ after _ B) as (e' & ->). reflexivity.
Qed.

Lemma overflowing_max_price_empties_result_witness : read_input_file overflow_file = [].
Proof.
  apply (overflowing_max_price_empties_result overflow_file "[{...}, {...}]"
           [JObj [("name", JStr "cable"); ("max_price", JStr "9.50")]]
           [("name", JStr "tv"); ("max_price", JInt (2 ^ 1024))]
           (JStr "tv") (2 ^ 1024) []); try reflexivity.
  apply Z.leb_le. vm_compute. reflexivity.
Defined.

(** * Further properties: configuration and start-up *)

Lemma rstrip_idempotent s : Py.rstrip (Py.rstrip s) = Py.rstrip s.
Proof.
  induction s as [|c r IH]; [reflexivity|]. cbn [Py.rstrip].
  destruct (Py.isspace c && Py.is_empty (Py.rstrip r)) eqn:E; [reflexivity|].
  cbn [Py.rstrip]. rewrite IH, E. reflexivity.
Qed.

Lemma lstrip_head s :
  Py.lstrip s = EmptyString
  \/ exists c r, Py.lstrip s = String c r /\ Py.isspace c = false.
Proof.
  induction s as [|c r IH]; [left; reflexivity|]. cbn [Py.lstrip].
  destruct (Py.isspace c) eqn:E; [exact IH|]. right. exists c, r. auto.
Qed.

Lemma strip_head s :
  Py.strip s = EmptyString
  \/ exists c r, Py.strip s = String c r /\ Py.isspace c = false.
Proof.
  unfold Py.strip. destruct (lstrip_head s) as [->|(c & r & -> & E)]; [left; reflexivity|].
  right. cbn [Py.rstrip]. rewrite E. cbn [andb]. eexists _, _. split; [reflexivity | exact E].
Qed.

Lemma strip_idempotent s : Py.strip (Py.strip s) = Py.strip s.
Proof.
  destruct (strip_head s) as [E|(c & r & E & Sp)].
  - rewrite E. reflexivity.
  - unfold Py.strip at 1. rewrite E. cbn [Py.lstrip]. rewrite Sp. rewrite <- E.
    unfold Py.strip. apply rstrip_idempotent.
Qed.

(** X19. The platform names read from the configuration are clean:
    every name is stripped of surrounding whitespace, is not empty and
    does not start with ";" (a comment line); and when the configuration
    failed to load, or the section or the option is missing, no platform
    is enabled. *)
Theorem enabled_platforms_are_clean (config : option Config) :
  (forall names p,
     config_manager.get_enabled_platforms config = inr names -> In p names ->
     Py.strip p = p /\ p <> EmptyString /\ Py.startswith p ";" = false)
  /\ (config = None
      \/ (exists c e, config = Some c /\ c "Platforms" "enabled_platforms" = inl e
                      /\ e <> InterpolationError) ->
      config_manager.get_enabled_platforms config = inr []).
Proof.
  split.
  - intros names p E I. unfold config_manager.get_enabled_platforms in E.
    destruct config as [c|]; [|injection E as <-; destruct I].
    assert (K : exists s,
               names = List.map Py.strip
                 (List.filter
                    (fun p => negb (Py.is_empty (Py.strip p))
                              && negb (Py.startswith (Py.strip p) ";"))
                    (config_manager.splitlines s))).
    { destruct (c "Platforms" "enabled_platforms") as [[]|s]; try discriminate;
        injection E as <-; [exists EmptyString | exists EmptyString | exists s]; reflexivity. }
    destruct K as (s & ->). apply in_map_iff in I as (x & <- & I).
    apply filter_In in I as (_ & F). apply andb_true_iff in F as (F1 & F2).
    apply negb_true_iff in F1, F2.
    split; [apply strip_idempotent|]. split; [|exact F2].
    intros Z. rewrite Z in F1. discriminate.
  - intros [->|(c & e & -> & E & N)]; [reflexivity|].
    unfold config_manager.get_enabled_platforms. rewrite E.
    destruct e; try reflexivity. contradiction.
Qed.

Lemma enabled_platforms_are_clean_witness :
  config_manager.get_enabled_platforms (Some sample_config)
  = inr ["ebay"; "bestbuy"; "eBay"; "ebay"]
  /\ (Py.strip "bestbuy" = "bestbuy" /\ "bestbuy" <> EmptyString
      /\ Py.startswith "bestbuy" ";" = false)
  /\ config_manager.get_enabled_platforms None = inr [].
Proof.
  split; [reflexivity|]. split.
  - apply (proj1 (enabled_platforms_are_clean (Some sample_config))
             ["ebay"; "bestbuy"; "eBay"; "ebay"] "bestbuy");
      [reflexivity | right; left; reflexivity].
  - apply (proj2 (enabled_platforms_are_clean None)). left. reflexivity.
Defined.

(** X20. The scheduler always gets a usable interval.  Whatever the
    configuration file holds under [schedule_interval_minutes] (nothing,
    text that is not an integer, zero, a negative number), start-up
    either stops because no configuration could be loaded, or it reads
    an interval of at least one minute without raising. *)
Theorem schedule_interval_is_positive (file_exists : bool) (parsed : option Config) :
  startup.schedule_interval (config_manager.load_config file_exists parsed) = None
  \/ exists minutes,
       startup.schedule_interval (config_manager.load_config file_exists parsed)
       = Some (inr minutes)
       /\ (1 <= minutes)%Z.
Proof.
  unfold config_manager.load_config.
  destruct (negb file_exists); [left; reflexivity|].
  destruct parsed as [config|]; [|left; reflexivity].
  assert (P : forall z, exists m, (if (z <=? 0)%Z then 60%Z else z) = m /\ (1 <= m)%Z).
  { intros z. destruct (Z.leb_spec z 0); eexists; split; try reflexivity; lia. }
  destruct (config_manager.getint config "General" config_manager.INTERVAL_KEY)
    as [[]|[z|]] eqn:G.
  - right. exists 60%Z. split; [reflexivity | lia].
  - right. exists 60%Z. split; [reflexivity | lia].
  - left. reflexivity.
  - right. destruct (P z) as (m & E & L). exists m. split; [|exact L].
    unfold startup.schedule_interval, config_manager.get_int_setting. rewrite G, E.
    reflexivity.
  - right. exists 60%Z. split; [reflexivity | lia].
Qed.

(** ** Loading the platform modules *)

Section LoaderFacts.

Variable A : Type.
Variable import_module : string -> M (string -> option (ModuleAttr A)).

Lemma dict_set_keys (k : string) (v : A) d :
  forall k', In k' (List.map fst (startup.dict_set k v d)) <->
             k' = k \/ In k' (List.map fst d).
Proof.
  induction d as [|[k0 v0] d IH]; intros k'; cbn [startup.dict_set List.map In fst].
  - intuition.
  - destruct (String.eqb_spec k k0) as [->|N]; cbn [List.map In fst].
    + intuition.
    + rewrite IH. intuition.
Qed.

Lemma dict_set_nodup (k : string) (v : A) d :
  NoDup (List.map fst d) -> NoDup (List.map fst (startup.dict_set k v d)).
Proof.
  induction d as [|[k0 v0] d IH]; cbn [startup.dict_set List.map fst]; intros N.
  - repeat constructor. intros [].
  - apply NoDup_cons_iff in N as [N1 N2].
    destruct (String.eqb_spec k k0) as [->|N]; cbn [List.map fst].
    + constructor; assumption.
    + constructor; [|apply IH, N2].
      rewrite dict_set_keys. intros [E|I]; [congruence | contradiction].
Qed.

Lemma load_names_keys names :
  forall platforms k,
  In k (List.map fst (startup.load_names import_module names platforms)) <->
  In k (List.map fst platforms)
  \/ (In k names /\ exists inst, startup.load_one import_module k = inr (Some inst)).
Proof.
  induction names as [|n rest IH]; intros platforms k; cbn [startup.load_names].
  - split; [auto | intros [H|([] & _)]; exact H].
  - destruct (startup.load_one import_module n) as [e|[inst|]] eqn:L.
    + rewrite IH. cbn [In]. split.
      * intros [H|(H & E)]; [left; exact H | right; split; [right; exact H | exact E]].
      * intros [H|([<-|H] & inst & E)]; [left; exact H | congruence | right; eauto].
    + rewrite IH, dict_set_keys. cbn [In]. split.
      * intros [[->|H]|(H & E)];
          [right; split; [left; reflexivity | exists inst; exact L]
          | left; exact H | right; split; [right; exact H | exact E]].
      * intros [H|([<-|H] & E)];
          [left; right; exact H | left; left; reflexivity | right; split; assumption].
    + rewrite IH. cbn [In]. split.
      * intros [H|(H & E)]; [left; exact H | right; split; [right; exact H | exact E]].
      * intros [H|([<-|H] & inst & E)]; [left; exact H | congruence | right; eauto].
Qed.

Lemma load_names_nodup names :
  forall platforms,
  NoDup (List.map fst platforms) ->
  NoDup (List.map fst (startup.load_names import_module names platforms)).
Proof.
  induction names as [|n rest IH]; intros platforms N; [exact N|].
  cbn [startup.load_names].
  destruct (startup.load_one import_module n) as [e|[inst|]]; try (apply IH, N).
  apply IH, dict_set_nodup, N.
Qed.

Lemma load_names_skip pre :
  forall platforms bad post,
  (forall inst, startup.load_one import_module bad <> inr (Some inst)) ->
  startup.load_names import_module (pre ++ bad :: post) platforms
  = startup.load_names import_module (pre ++ post) platforms.
Proof.
  induction pre as [|n pre IH]; intros platforms bad post B.
  - cbn [app startup.load_names].
    destruct (startup.load_one import_module bad) as [e|[inst|]]; try reflexivity.
    exfalso. apply (B inst eq_refl).
  - cbn [app startup.load_names].
    destruct (startup.load_one import_module n) as [e|[inst|]]; apply IH, B.
Qed.

End LoaderFacts.

(** X21. [load_platform_modules] registers exactly the enabled names
    whose module can be imported and whose class, named after the
    capitalised name, derives from [BasePlatform] and can be
    instantiated; each name is registered once; and a name that fails
    (no such module, no such class, not a platform, a constructor that
    raises) changes nothing for the others. *)
Theorem load_platform_modules_spec (A : Type)
  (import_module : string -> M (string -> option (ModuleAttr A)))
  (pre post : list string) (bad : string) :
  (forall names k,
     In k (List.map fst (startup.load_platform_modules import_module names))
     <-> In k names /\ exists inst, startup.load_one import_module k = inr (Some inst))
  /\ (forall names,
        NoDup (List.map fst (startup.load_platform_modules import_module names)))
  /\ ((forall inst, startup.load_one import_module bad <> inr (Some inst)) ->
      startup.load_platform_modules import_module (pre ++ bad :: post)
      = startup.load_platform_modules import_module (pre ++ post)).
Proof.
  unfold startup.load_platform_modules. split; [|split].
  - intros names k. rewrite load_names_keys. cbn [List.map In]. split.
    + intros [[]|H]. exact H.
    + intros H. right. exact H.
  - intros names. apply load_names_nodup. constructor.
  - apply load_names_skip.
Qed.

Lemma load_platform_modules_spec_witness :
  startup.load_platform_modules package_modules
    (["ebay"] ++ "eBay" :: ["bestbuy"; "base"; "ebay"])%list
  = [("ebay", EBAY); ("bestbuy", BESTBUY)].
Proof.
  rewrite (proj2 (proj2 (load_platform_modules_spec Platform package_modules
                           ["ebay"] ["bestbuy"; "base"; "ebay"] "eBay"))).
  - reflexivity.
  - intros inst. discriminate.
Defined.

(** * A larger budget never loses a result *)

Lemma float_gt_budget p q1 q2 :
  (q1 <= q2)%Q -> float_gt p (Finite q1) = false -> float_gt p (Finite q2) = false.
Proof.
  intros L. unfold float_gt. destruct p as [x|[]|]; cbn; try reflexivity; try discriminate.
  destruct (Qcompare x q1) eqn:C1; try discriminate; intros _;
    destruct (Qcompare x q2) eqn:C2; try reflexivity; exfalso;
    apply Qgt_alt in C2.
  - apply Qeq_alt in C1. rewrite C1 in C2. apply (Qlt_irrefl q1).
    apply (Qle_lt_trans _ _ _ L C2).
  - apply Qlt_alt in C1. apply (Qlt_irrefl x).
    apply (Qlt_trans _ _ _ C1). apply (Qle_lt_trans _ _ _ L C2).
Qed.

Lemma apply_filters_budget res n s q1 q2 :
  (q1 <= q2)%Q ->
  BasePlatform._apply_filters res (mkItem n (Finite q1) s) = true ->
  BasePlatform._apply_filters res (mkItem n (Finite q2) s) = true.
Proof.
  intros L. unfold BasePlatform._apply_filters. cbn [max_price].
  destruct (price res) as [p|]; [|discriminate].
  destruct (float_gt p (Finite q1)) eqn:G; [discriminate|].
  rewrite (float_gt_budget _ _ _ L G). reflexivity.
Qed.

Section Budget.

Variables (n : string) (s : pyfloat) (q1 q2 : Q).
Hypothesis budget : (q1 <= q2)%Q.

Let it1 := mkItem n (Finite q1) s.
Let it2 := mkItem n (Finite q2) s.

Ltac filter_step :=
  match goal with
  | |- context [BasePlatform._apply_filters ?res it1] =>
      destruct (BasePlatform._apply_filters res it1) eqn:F; [|discriminate];
      change (BasePlatform._apply_filters res it2)
        with (BasePlatform._apply_filters res (mkItem n (Finite q2) s));
      rewrite (apply_filters_budget _ _ _ _ _ budget F)
  end.

Lemma ebay_body_budget li r :
  EbayPlatform.process_listing it1 li = inr (Some r) ->
  EbayPlatform.process_listing it2 li = inr (Some r).
Proof.
  unfold EbayPlatform.process_listing. cbn [name it1 it2].
  destruct (EbayPlatform.listing_seller_rating li) as [e|sr]; [discriminate|]. cbn [bind].
  destruct (_ || _ || _); [discriminate|].
  filter_step. cbn [andb]. exact (fun H => H).
Qed.

Lemma amazon_body_budget li r :
  AmazonPlatform.process_listing it1 li = inr (Some r) ->
  AmazonPlatform.process_listing it2 li = inr (Some r).
Proof.
  unfold AmazonPlatform.process_listing. cbn [name it1 it2].
  destruct (select_one li AmazonPlatform.SPONSORED_SELECTOR); [discriminate|].
  destruct (_ || _ || _); [discriminate|].
  filter_step. exact (fun H => H).
Qed.

Lemma walmart_body_budget li r :
  WalmartPlatform.process_listing it1 li = inr (Some r) ->
  WalmartPlatform.process_listing it2 li = inr (Some r).
Proof.
  unfold WalmartPlatform.process_listing. cbn [name it1 it2].
  destruct (_ || _ || _); [discriminate|].
  filter_step. exact (fun H => H).
Qed.

Lemma bestbuy_body_budget li r :
  BestbuyPlatform.process_listing it1 li = inr (Some r) ->
  BestbuyPlatform.process_listing it2 li = inr (Some r).
Proof.
  unfold BestbuyPlatform.process_listing. cbn [name it1 it2].
  destruct (_ || _ || _); [discriminate|].
  filter_step. exact (fun H => H).
Qed.

Lemma walmart_json_budget d r :
  WalmartPlatform.process_item_data it1 d = inr (Some r) ->
  WalmartPlatform.process_item_data it2 d = inr (Some r).
Proof.
  unfold WalmartPlatform.process_item_data. cbn [name it1 it2].
  do 6 (match goal with
        | |- context [bind ?m _] => destruct m as [?|?]; cbn [bind]; [discriminate|]
        end).
  destruct (_ || _ || _); [discriminate|].
  filter_step. exact (fun H => H).
Qed.

Lemma bestbuy_json_budget d r :
  BestbuyPlatform.process_product it1 d = inr (Some r) ->
  BestbuyPlatform.process_product it2 d = inr (Some r).
Proof.
  unfold BestbuyPlatform.process_product. cbn [name it1 it2].
  do 4 (match goal with
        | |- context [bind ?m _] => destruct m as [?|?]; cbn [bind]; [discriminate|]
        end).
  destruct (_ || _ || _); [discriminate|].
  match goal with
  | |- context [bind ?m _] => destruct m as [?|?]; cbn [bind]; [discriminate|]
  end.
  match goal with |- context [match ?j with JStr _ => _ | _ => _ end] => destruct j end;
    try discriminate.
  filter_step. exact (fun H => H).
Qed.

Lemma flat_map_budget {A} (f1 f2 : A -> M (option Result)) l :
  (forall x r, f1 x = inr (Some r) -> f2 x = inr (Some r)) ->
  incl (flat_map (fun x => listing_results (f1 x)) l)
       (flat_map (fun x => listing_results (f2 x)) l).
Proof.
  intros H r I. apply in_flat_map_results in I as (x & Ix & E).
  apply in_flat_map. exists x. split; [exact Ix|]. rewrite (H _ _ E). left. reflexivity.
Qed.

Lemma walmart_scan_budget scripts :
  snd (WalmartPlatform.scan_scripts it1 scripts) = snd (WalmartPlatform.scan_scripts it2 scripts)
  /\ incl (snd (fst (WalmartPlatform.scan_scripts it1 scripts)))
          (snd (fst (WalmartPlatform.scan_scripts it2 scripts))).
Proof.
  induction scripts as [|x rest [IH1 IH2]]; cbn [WalmartPlatform.scan_scripts].
  - split; [reflexivity | apply incl_refl].
  - unfold WalmartPlatform.script_step.
    destruct (WalmartPlatform.scan_scripts it1 rest) as [[la ra] fa].
    destruct (WalmartPlatform.scan_scripts it2 rest) as [[lb rb] fb].
    cbn [fst snd] in IH1, IH2.
    destruct (Py.contains "searchContent" (script_text x)); [|split; assumption].
    destruct (WalmartPlatform.script_items x) as [e|[entries|]].
    + destruct e; split; assumption.
    + cbn [fst snd]. split; [reflexivity|]. apply flat_map_budget, walmart_json_budget.
    + split; assumption.
Qed.

Lemma bestbuy_entries_budget entries :
  forall ra rb, incl ra rb ->
  snd (BestbuyPlatform.process_entries it1 entries ra)
  = snd (BestbuyPlatform.process_entries it2 entries rb)
  /\ incl (fst (BestbuyPlatform.process_entries it1 entries ra))
          (fst (BestbuyPlatform.process_entries it2 entries rb)).
Proof.
  induction entries as [|e rest IH]; intros ra rb I; cbn [BestbuyPlatform.process_entries].
  - split; [reflexivity | exact I].
  - match goal with |- context [match ?m with inl _ => _ | inr _ => _ end] =>
      destruct m as [x|[d ty]] end; [split; [reflexivity | exact I]|].
    destruct (negb (PyVal.eq_str ty "Product")); [apply IH, I|].
    apply IH. apply incl_app; [apply incl_appl, I|]. apply incl_appr.
    intros r Hr. apply in_listing_results in Hr.
    rewrite (bestbuy_json_budget _ _ Hr). left. reflexivity.
Qed.

Lemma bestbuy_scan_budget scripts :
  forall ra rb, incl ra rb ->
  snd (BestbuyPlatform.scan_scripts it1 scripts ra)
  = snd (BestbuyPlatform.scan_scripts it2 scripts rb)
  /\ incl (snd (fst (BestbuyPlatform.scan_scripts it1 scripts ra)))
          (snd (fst (BestbuyPlatform.scan_scripts it2 scripts rb))).
Proof.
  induction scripts as [|x rest IH]; intros ra rb I; cbn [BestbuyPlatform.scan_scripts].
  - split; [reflexivity | exact I].
  - assert (K : snd (BestbuyPlatform.script_step it1 x ra)
                = snd (BestbuyPlatform.script_step it2 x rb)
                /\ incl (snd (fst (BestbuyPlatform.script_step it1 x ra)))
                        (snd (fst (BestbuyPlatform.script_step it2 x rb)))).
    { unfold BestbuyPlatform.script_step.
      destruct (BestbuyPlatform.script_items x) as [e|[entries|]];
        [split; [reflexivity | exact I]| |split; [reflexivity | exact I]].
      destruct (bestbuy_entries_budget entries ra rb I) as [E1 E2].
      destruct (BestbuyPlatform.process_entries it1 entries ra) as [r1 o1].
      destruct (BestbuyPlatform.process_entries it2 entries rb) as [r2 o2].
      cbn [fst snd] in E1, E2. subst o2. destruct o1; split; auto. }
    destruct (BestbuyPlatform.script_step it1 x ra) as [[l1 r1] f1].
    destruct (BestbuyPlatform.script_step it2 x rb) as [[l2 r2] f2].
    cbn [fst snd] in K. destruct K as [<- K].
    destruct (IH r1 r2 K) as [E1 E2].
    destruct (BestbuyPlatform.scan_scripts it1 rest r1) as [[l1' r1'] f1'].
    destruct (BestbuyPlatform.scan_scripts it2 rest r2) as [[l2' r2'] f2'].
    cbn [fst snd] in *. subst f2'. split; [reflexivity | exact E2].
Qed.

Lemma search_budget p session_get rs1 rs2 :
  snd (search p it1 session_get) = inr rs1 ->
  snd (search p it2 session_get) = inr rs2 ->
  incl rs1 rs2.
Proof.
  destruct p; cbn [search].
  - unfold EbayPlatform.search.
    destruct (BasePlatform._make_request _ session_get) as [l1 [resp|]];
      [|intros E1 E2; injection E1 as <-; intros r []].
    destruct (BasePlatform._parse_html _ resp) as [l2 [soup|]];
      intros E1 E2; injection E1 as <-; injection E2 as <-; [|intros r []].
    apply flat_map_budget, ebay_body_budget.
  - unfold AmazonPlatform.search.
    destruct (BasePlatform._make_request _ session_get) as [l1 [resp|]];
      [|intros E1 E2; injection E1 as <-; intros r []].
    destruct (AmazonPlatform.is_blocked resp);
      [intros E1 E2; injection E1 as <-; intros r []|].
    destruct (BasePlatform._parse_html _ resp) as [l2 [soup|]];
      intros E1 E2; injection E1 as <-; injection E2 as <-; [|intros r []].
    apply flat_map_budget, amazon_body_budget.
  - unfold WalmartPlatform.search.
    destruct (BasePlatform._make_request _ session_get) as [l1 [resp|]];
      [|intros E1 E2; injection E1 as <-; intros r []].
    destruct (WalmartPlatform.is_blocked resp);
      [intros E1 E2; injection E1 as <-; intros r []|].
    destruct (BasePlatform._parse_html _ resp) as [l2 [soup|]];
      [|intros E1 E2; injection E1 as <-; intros r []].
    destruct (walmart_scan_budget (select_scripts soup WalmartPlatform.SCRIPT_SELECTOR))
      as [F I].
    destruct (WalmartPlatform.scan_scripts it1 _) as [[la ra] fa].
    destruct (WalmartPlatform.scan_scripts it2 _) as [[lb rb] fb].
    cbn [fst snd] in F, I. subst fb.
    intros E1 E2; injection E1 as <-; injection E2 as <-.
    destruct (negb fa); [|exact I].
    apply incl_app; [apply incl_appl, I|]. apply incl_appr.
    apply flat_map_budget, walmart_body_budget.
  - unfold BestbuyPlatform.search.
    destruct (BasePlatform._make_request _ session_get) as [l1 [resp|]];
      [|intros E1 E2; injection E1 as <-; intros r []].
    destruct (BestbuyPlatform.is_blocked resp);
      [intros E1 E2; injection E1 as <-; intros r []|].
    destruct (BasePlatform._parse_html _ resp) as [l2 [soup|]];
      [|intros E1 E2; injection E1 as <-; intros r []].
    destruct (bestbuy_scan_budget (select_scripts soup BestbuyPlatform.SCRIPT_SELECTOR_BB)
                [] [] (incl_refl _)) as [F I].
    destruct (BestbuyPlatform.scan_scripts it1 _ _) as [[la ra] fa].
    destruct (BestbuyPlatform.scan_scripts it2 _ _) as [[lb rb] fb].
    cbn [fst snd] in F, I. subst fb.
    intros E1 E2; injection E1 as <-; injection E2 as <-.
    destruct (negb fa); [|exact I].
    apply incl_app; [apply incl_appl, I|]. apply incl_appr.
    apply flat_map_budget, bestbuy_body_budget.
Qed.

End Budget.

(** X22. A larger budget never loses a result: for the same page, the
    same name and the same minimum rating, every result any adapter
    returns under the maximum price [q1] is also returned under a
    maximum price [q2] that is not smaller. *)
Theorem larger_budget_keeps_results p n s q1 q2 session_get rs1 rs2 r :
  (q1 <= q2)%Q ->
  snd (search p (mkItem n (Finite q1) s) session_get) = inr rs1 ->
  snd (search p (mkItem n (Finite q2) s) session_get) = inr rs2 ->
  In r rs1 -> In r rs2.
Proof.
  intros L E1 E2 I. apply (search_budget n s q1 q2 L p session_get rs1 rs2 E1 E2 r I).
Qed.

Lemma larger_budget_keeps_results_witness :
  In (mkResult "eBay" "RTX 3080" (JStr "RTX 3080 FE") (Some (Finite (45000 # 100)))
               (Some (Finite 97)) (Some "https://www.ebay.com/itm/1"%string))
     [mkResult "eBay" "RTX 3080" (JStr "RTX 3080 FE") (Some (Finite (45000 # 100)))
               (Some (Finite 97)) (Some "https://www.ebay.com/itm/1"%string);
      mkResult "eBay" "RTX 3080" (JStr "RTX 3080 Ti") (Some (Finite (55000 # 100)))
               (Some (Finite 97)) (Some "https://www.ebay.com/itm/2"%string)].
Proof.
  apply (larger_budget_keeps_results EBAY "RTX 3080" (Finite 95) 500 600
           (inr scenario_a_page)
           [mkResult "eBay" "RTX 3080" (JStr "RTX 3080 FE") (Some (Finite (45000 # 100)))
                     (Some (Finite 97)) (Some "https://www.ebay.com/itm/1"%string)]);
    [discriminate | reflexivity | reflexivity | left; reflexivity].
Defined.
